(** * ShinBot: command gates and the Gemini relay handler

    A shallow embedding of [src/utils/decorators.py] and
    [src/handlers/ai/chat.py].

    The Python code is a sequence of awaited calls on external
    collaborators (the chat platform client, the message object, the
    target extractor, the usage logger, the AI backend) with try/except
    and try/finally around them.  It is embedded in a state and exception
    monad over
    - an abstract world [W] that answers every collaborator call and may
      change with each call (so the same lookup can succeed once and fail
      the next time),
    - the trace of the collaborator calls the code has made, in order,
    - the module-level set [active_gemini_requests].

    Exceptions are the subclasses of Python's [Exception], which is what
    the [except Exception] clauses of the source catch.  Calls to
    [logger] and [print] only format and record text; they are left out.
    Building the backend client, its tool and its configuration is part
    of the backend collaborator [generate_content].

    A wrapped command body is any computation of the monad; [invoke]
    turns a body supplied by the world into one, and records the call. *)

From Stdlib Require Import ZArith String Ascii Lia.
From stdpp Require Import gmap strings list.

Local Open Scope Z_scope.
Local Open Scope string_scope.

(** ** Python strings

    A [str] is a [string]; its units, which [len] counts and slices cut,
    are the characters of the string, and a character stands for the
    code point of its number (0 to 255). *)

Module Py.

Definition len (s : string) : Z := Z.of_nat (String.length s).

(** [s[i:j]] for [0 <= i <= j]: slices are clamped at the end of [s]. *)
Definition slice (s : string) (i j : Z) : string :=
  substring (Z.to_nat i) (Z.to_nat (j - i)) s.

(** [range(start, stop, step)] for a positive [step]. *)
Definition range (start stop step : Z) : list Z :=
  map (fun k => start + Z.of_nat k * step)
      (seq 0 (Z.to_nat ((stop - start + step - 1) / step))).

Definition is_upper (c : ascii) : bool :=
  let n := nat_of_ascii c in (65 <=? n)%nat && (n <=? 90)%nat.

Definition is_lower (c : ascii) : bool :=
  let n := nat_of_ascii c in (97 <=? n)%nat && (n <=? 122)%nat.

Definition to_lower (c : ascii) : ascii :=
  if is_upper c then ascii_of_nat (nat_of_ascii c + 32) else c.

Definition to_upper (c : ascii) : ascii :=
  if is_lower c then ascii_of_nat (nat_of_ascii c - 32) else c.

(** [s.lower()] *)
Fixpoint lower (s : string) : string :=
  match s with
  | EmptyString => EmptyString
  | String c r => String (to_lower c) (lower r)
  end.

(** [s.title()]: a letter is upper-cased when it follows a character
    that is not a letter, and lower-cased otherwise.  The letters are
    the ASCII letters, of which model names are made. *)
Fixpoint title_from (prev_cased : bool) (s : string) : string :=
  match s with
  | EmptyString => EmptyString
  | String c r =>
      if is_upper c || is_lower c
      then String (if prev_cased then to_lower c else to_upper c)
                  (title_from true r)
      else String c (title_from false r)
  end.

Definition title (s : string) : string := title_from false s.

(** The characters [str.strip()] removes: the whitespace of Python among
    the code points below 256, that is 9 to 13, 28 to 32, 133 (U+0085)
    and 160 (U+00A0). *)
Definition is_space (c : ascii) : bool :=
  let n := nat_of_ascii c in
  ((9 <=? n)%nat && (n <=? 13)%nat) || ((28 <=? n)%nat && (n <=? 32)%nat)
  || (n =? 133)%nat || (n =? 160)%nat.

Fixpoint lstrip (s : string) : string :=
  match s with
  | EmptyString => EmptyString
  | String c r => if is_space c then lstrip r else s
  end.

Fixpoint rstrip (s : string) : string :=
  match s with
  | EmptyString => EmptyString
  | String c r =>
      let r' := rstrip r in
      if is_space c && String.eqb r' "" then "" else String c r'
  end.

(** [s.strip()] *)
Definition strip (s : string) : string := rstrip (lstrip s).

(** [s.replace(old, new)] for a non-empty [old]: occurrences are found
    left to right and do not overlap.  [skip] counts the characters of
    a matched occurrence that remain to be dropped. *)
Fixpoint replace_from (old new : string) (skip : nat) (s : string) : string :=
  match s with
  | EmptyString => EmptyString
  | String c r =>
      match skip with
      | S k => replace_from old new k r
      | O =>
          if String.prefix old s
          then new +:+ replace_from old new (String.length old - 1) r
          else String c (replace_from old new 0 r)
      end
  end.

(** With an empty [old], Python puts [new] before every character and
    at the end. *)
Fixpoint intersperse (new s : string) : string :=
  match s with
  | EmptyString => new
  | String c r => new +:+ String c (intersperse new r)
  end.

Definition replace (s old new : string) : string :=
  match old with
  | EmptyString => intersperse new s
  | _ => replace_from old new 0 s
  end.

End Py.

(** ** Platform data (pyrogram types, as far as the code reads them) *)

Inductive ChatType := PRIVATE | BOT | GROUP | SUPERGROUP | CHANNEL.

(** [chat.type.name] *)
Definition ChatType_name (t : ChatType) : string :=
  match t with
  | PRIVATE => "PRIVATE"
  | BOT => "BOT"
  | GROUP => "GROUP"
  | SUPERGROUP => "SUPERGROUP"
  | CHANNEL => "CHANNEL"
  end.

Inductive ChatMemberStatus :=
  OWNER | ADMINISTRATOR | MEMBER | RESTRICTED | LEFT | BANNED.

Record Chat := { chat_id : Z; chat_type : ChatType }.

Record User := { user_id : Z }.

(** [privileges] is [None] or an object with named boolean flags. *)
Record ChatMember := {
  user : User;
  status : ChatMemberStatus;
  privileges : option (gmap string bool)
}.

(** [from_user] is absent on messages that no user sent (channel posts,
    anonymous administrators), [text] on messages without text. *)
Record Message := {
  message_id : Z;
  chat : Chat;
  from_user : option User;
  text : option string
}.

(** Second argument of [get_chat_member]: the literal ["me"] or a user id. *)
Inductive member_ref := Me | UserRef (uid : Z).

(** ** Exceptions and outcomes *)

Inductive exn :=
| UserAdminInvalid (msg : string)
| AttributeError (msg : string)
| TypeError (msg : string)
| OtherException (msg : string).

(** [str(e)] *)
Definition str_exn (e : exn) : string :=
  match e with
  | UserAdminInvalid m | AttributeError m | TypeError m | OtherException m => m
  end.

Inductive outcome (A : Type) :=
| Return (a : A)
| Raise (e : exn).
Arguments Return {A} a.
Arguments Raise {A} e.

(** ** The calls the code makes on its collaborators, as trace events *)

Inductive event :=
| EvGetChat (cid : Z)
| EvGetChatMember (cid : Z) (who : member_ref)
| EvGetChatAdministrators (cid : Z)
| EvExtract (m : Message)
| EvReply (m : Message) (body : string)
| EvDelete (m : Message)
| EvFunc (m : Message)
| EvSaveUsage (c : Chat) (feature : string)
| EvGenerate (model prompt : string)
| EvSleep.

(** Every collaborator answers from the current world and yields the next
    one. *)
Record Collaborators (W : Type) := {
  get_chat : Z -> W -> outcome Chat * W;
  get_chat_member : Z -> member_ref -> W -> outcome ChatMember * W;
  get_chat_administrators : Z -> W -> outcome (list ChatMember) * W;
  extract_user_and_reason : Message -> W -> outcome (option User * string) * W;
  reply : Message -> string -> W -> outcome Message * W;
  delete : Message -> W -> outcome unit * W;
  save_usage : Chat -> string -> W -> outcome unit * W;
  (** the backend request with the fixed tool and persona configuration;
      the result is [response.text], which may be [None] *)
  generate_content : string -> string -> W -> outcome (option string) * W
}.
Arguments get_chat {W}.
Arguments get_chat_member {W}.
Arguments get_chat_administrators {W}.
Arguments extract_user_and_reason {W}.
Arguments reply {W}.
Arguments delete {W}.
Arguments save_usage {W}.
Arguments generate_content {W}.

(** The constants imported from [config]. *)
Record Config := {
  BOT_USERNAME : string;
  GEMINI_API_KEY : string;
  GEMINI_MODEL : string
}.

(** ** The monad *)

Section Runtime.
Context {W : Type}.

Record state := {
  world : W;
  trace : list event;
  active_gemini_requests : gset Z
}.

Definition M (A : Type) : Type := state -> outcome A * state.

Definition ret {A} (a : A) : M A := fun st => (Return a, st).

Definition raise {A} (e : exn) : M A := fun st => (Raise e, st).

Definition bind {A B} (m : M A) (k : A -> M B) : M B :=
  fun st =>
    match m st with
    | (Return a, st') => k a st'
    | (Raise e, st') => (Raise e, st')
    end.

(** The state after a collaborator call [ev] that left the world [w']. *)
Definition step (st : state) (ev : event) (w' : W) : state :=
  {| world := w';
     trace := trace st ++ [ev];
     active_gemini_requests := active_gemini_requests st |}.

(** [await op(...)]: record the call, let the world answer. *)
Definition call {A} (ev : event) (op : W -> outcome A * W) : M A :=
  fun st => let (r, w') := op (world st) in (r, step st ev w').

(** [try: body except ...: handler] *)
Definition try_except {A} (body : M A) (handler : exn -> M A) : M A :=
  fun st =>
    match body st with
    | (Return a, st') => (Return a, st')
    | (Raise e, st') => handler e st'
    end.

(** [try: body finally: fin]: [fin] runs on every way out of [body]. *)
Definition try_finally {A} (body : M A) (fin : M unit) : M A :=
  fun st =>
    let (r, st1) := body st in
    match fin st1 with
    | (Return _, st2) => (r, st2)
    | (Raise e, st2) => (Raise e, st2)
    end.

Definition get_active : M (gset Z) :=
  fun st => (Return (active_gemini_requests st), st).

Definition set_active (s : gset Z) : M unit :=
  fun st => (Return tt, {| world := world st;
                           trace := trace st;
                           active_gemini_requests := s |}).

End Runtime.
Arguments state W : clear implicits.
Arguments M W A : clear implicits.

(** The monad operations behind stdpp's [x ← m; k] and [m;; k]. *)
#[global] Instance M_ret {W} : MRet (M W) := fun A a => ret a.
#[global] Instance M_bind {W} : MBind (M W) := fun A B k m => bind m k.

(** A block of statements either falls through to the next statement or
    executes [return r]. *)
Inductive flow (R : Type) :=
| Fallthrough
| Returned (r : R).
Arguments Fallthrough {R}.
Arguments Returned {R} r.

Definition and_then {W R} (blk : M W (flow R)) (rest : M W R) : M W R :=
  bind blk (fun f => match f with
                     | Returned r => ret r
                     | Fallthrough => rest
                     end).

(** ** [src/utils/decorators.py] *)

#[global] Instance ChatMemberStatus_eq_dec : EqDecision ChatMemberStatus.
Proof. solve_decision. Defined.

(** [chat.type.name.lower() == "private"] *)
Definition is_private (c : Chat) : bool :=
  String.eqb (Py.lower (ChatType_name (chat_type c))) "private".

(** [s in [ChatMemberStatus.OWNER, ChatMemberStatus.ADMINISTRATOR]] *)
Definition owner_or_administrator (s : ChatMemberStatus) : bool :=
  bool_decide (s ∈ [OWNER; ADMINISTRATOR]).

(** [m.privileges and getattr(m.privileges, permission, False)] *)
Definition has_privilege (m : ChatMember) (permission : string) : bool :=
  match privileges m with
  | None => false
  | Some flags => default false (flags !! permission)
  end.

(** The first [admin] of the list with [admin.user.id == uid]: the entry
    at which the [for] loops over the administrator list return. *)
Definition find_admin (uid : Z) (admins : list ChatMember) : option ChatMember :=
  List.find (fun admin => Z.eqb (user_id (user admin)) uid) admins.

Definition bot_needs_admin : string :=
  "❌ I need administrator permissions to execute admin commands.".
Definition bot_unverified : string :=
  "❌ Unable to verify bot permissions.".
Definition admins_only : string :=
  "❌ This command is only available to administrators.".
Definition unexpected_error : string :=
  "❌ An unexpected error occurred.".
Definition not_on_yourself : string :=
  "❌ You cannot perform this action on yourself.".
Definition not_on_administrator : string :=
  "❌ You cannot use this command on an administrator.".
Definition user_unverified : string :=
  "❌ Unable to verify your permissions.".
Definition permission_check_error : string :=
  "❌ An error occurred while checking permissions.".
(** [f"❌ You need the `{permission}` permission to use this command."] *)
Definition need_permission (permission : string) : string :=
  "❌ You need the `" +:+ permission +:+ "` permission to use this command.".

Section Decorators.
Context {W R : Type} (env : Collaborators W).

(** A command body or a wrapper around one: [async def f(client, message)].
    The result is [None] or some other value. *)
Definition handler : Type := Message -> M W (option R).

(** [await message.reply(body)] *)
Definition message_reply (message : Message) (body : string) : M W Message :=
  call (EvReply message body) (reply env message body).

(** [message.from_user.id] *)
Definition from_user_id (message : Message) : M W Z :=
  match from_user message with
  | Some u => mret (user_id u)
  | None => raise (AttributeError "'NoneType' object has no attribute 'id'")
  end.

Definition check_admin_permissions (cid uid : Z) : M W bool :=
  try_except
    (ch ← call (EvGetChat cid) (get_chat env cid);
     if is_private ch then mret true
     else
       and_then
         (* the bot's own status; a failed lookup is only logged *)
         (try_except
            (bot_member ← call (EvGetChatMember cid Me)
                               (get_chat_member env cid Me);
             if negb (owner_or_administrator (status bot_member))
             then mret (Returned false)
             else mret Fallthrough)
            (fun _ => mret Fallthrough))
         (try_except
            (member ← call (EvGetChatMember cid (UserRef uid))
                           (get_chat_member env cid (UserRef uid));
             if owner_or_administrator (status member)
             then mret true
             else mret false)
            (fun e =>
               match e with
               | UserAdminInvalid _ => mret false
               | _ =>
                   (* fallback: the administrators list *)
                   try_except
                     (admins ← call (EvGetChatAdministrators cid)
                                    (get_chat_administrators env cid);
                      match find_admin uid admins with
                      | Some _ => mret true
                      | None => mret false
                      end)
                     (fun _ => mret false)
               end)))
    (fun _ => mret false).

Definition admin_only (func : handler) : handler := fun message =>
  try_except
    (ch ← call (EvGetChat (chat_id (chat message)))
                 (get_chat env (chat_id (chat message)));
     and_then
       (if negb (is_private ch)
        then
          try_except
            (bot_member ← call (EvGetChatMember (chat_id (chat message)) Me)
                               (get_chat_member env (chat_id (chat message)) Me);
             if negb (owner_or_administrator (status bot_member))
             then message_reply message bot_needs_admin;;
                  mret (Returned None)
             else mret Fallthrough)
            (fun _ =>
               message_reply message bot_unverified;;
               mret (Returned None))
        else mret Fallthrough)
       (uid ← from_user_id message;
        is_admin ← check_admin_permissions (chat_id (chat message)) uid;
        if negb is_admin
        then message_reply message admins_only;; mret None
        else func message))
    (fun _ => message_reply message unexpected_error;; mret None).

Definition protect_admins (func : handler) : handler := fun message =>
  ch ← call (EvGetChat (chat_id (chat message)))
              (get_chat env (chat_id (chat message)));
  if is_private ch then func message
  else
    extracted ← call (EvExtract message) (extract_user_and_reason env message);
    match fst extracted with
    | None => func message
    | Some target_user =>
        uid ← from_user_id message;
        if Z.eqb (user_id target_user) uid
        then message_reply message not_on_yourself;; mret None
        else
          is_target_admin ←
            check_admin_permissions (chat_id (chat message)) (user_id target_user);
          if is_target_admin : bool
          then message_reply message not_on_administrator;; mret None
          else func message
    end.

Definition require_permission (permission : string) (func : handler) : handler :=
  fun message =>
  let chat := chat message in
  if is_private chat then func message
  else
    and_then
      (try_except
         (bot_member ← call (EvGetChatMember (chat_id chat) Me)
                            (get_chat_member env (chat_id chat) Me);
          if negb (owner_or_administrator (status bot_member))
          then message_reply message bot_needs_admin;;
               mret (Returned None)
          else mret Fallthrough)
         (fun _ =>
            message_reply message bot_unverified;;
            mret (Returned None)))
      (uid ← from_user_id message;
       try_except
         (member ← call (EvGetChatMember (chat_id chat) (UserRef uid))
                        (get_chat_member env (chat_id chat) (UserRef uid));
          if bool_decide (status member = OWNER) then func message
          else if bool_decide (status member = ADMINISTRATOR) then
            if has_privilege member permission then func message
            else message_reply message (need_permission permission);;
                 mret None
          else message_reply message admins_only;; mret None)
         (fun e =>
            match e with
            | UserAdminInvalid _ =>
                message_reply message user_unverified;; mret None
            | _ =>
                (* fallback: check admin list *)
                try_except
                  (admins ← call (EvGetChatAdministrators (chat_id chat))
                                 (get_chat_administrators env (chat_id chat));
                   match find_admin uid admins with
                   | Some admin =>
                       if bool_decide (status admin = OWNER) then func message
                       else if has_privilege admin permission then func message
                       else message_reply message (need_permission permission);;
                            mret None
                   | None => message_reply message admins_only;; mret None
                   end)
                  (fun _ =>
                     message_reply message permission_check_error;;
                     mret None)
            end)).

(** A command body supplied by the rest of the bot: calling it is one
    more collaborator call. *)
Definition invoke (body : Message -> W -> outcome (option R) * W) : handler :=
  fun message => call (EvFunc message) (body message).

End Decorators.

(** ** [src/handlers/ai/chat.py] *)

Definition wait_for_previous : string :=
  "Please wait for your previous Gemini request to finish before sending another.".
Definition write_your_prompt : string :=
  "Please write your prompt on the same message.".
Definition wait_a_moment : string := "Wait a moment...".
(** [f"Sorry, an unexpected error had occured: {str(e)}"] *)
Definition sorry (e : exn) : string :=
  "Sorry, an unexpected error had occured: " +:+ str_exn e.

Definition limit : Z := 4000.

(** [[response_text[i: i + limit] for i in range(0, len(response_text), limit)]] *)
Definition parts_of (response_text : string) : list string :=
  map (fun i => Py.slice response_text i (i + limit))
      (Py.range 0 (Py.len response_text) limit).

Section Gemini.
Context {W : Type} (env : Collaborators W) (cfg : Config).

(** [active_gemini_requests.add(chat_id)] *)
Definition active_add (cid : Z) : M W unit :=
  s ← get_active; set_active ({[cid]} ∪ s).

(** [active_gemini_requests.discard(chat_id)] *)
Definition active_discard (cid : Z) : M W unit :=
  s ← get_active; set_active (s ∖ {[cid]}).

(** [message.text.replace("/gemini", "").replace(f"@{BOT_USERNAME}", "").strip()] *)
Definition prompt_of (message : Message) : M W string :=
  match text message with
  | None => raise (AttributeError "'NoneType' object has no attribute 'replace'")
  | Some t =>
      mret (Py.strip (Py.replace (Py.replace t "/gemini" "")
                                 ("@" +:+ BOT_USERNAME cfg) ""))
  end.

(** [f"**{GEMINI_MODEL.title()}:** {part}"] *)
Definition answer (part : string) : string :=
  "**" +:+ Py.title (GEMINI_MODEL cfg) +:+ ":** " +:+ part.

(** [response.text] can be [None], on which [len(response_text)] raises. *)
Definition checked_len (response_text : option string) : M W string :=
  match response_text with
  | Some t => mret t
  | None => raise (TypeError "object of type 'NoneType' has no len()")
  end.

(** [await asyncio.sleep(0.5)] *)
Definition sleep : M W unit := call EvSleep (fun w => (Return tt, w)).

(** [for part in parts: await message.reply(...); await asyncio.sleep(0.5)] *)
Fixpoint send_parts (message : Message) (parts : list string) : M W unit :=
  match parts with
  | [] => mret tt
  | part :: rest =>
      message_reply env message (answer part);;
      sleep;;
      send_parts message rest
  end.

Definition gemini_command (message : Message) : M W unit :=
  let chat := chat message in
  let chat_id := chat_id chat in
  (* Limit to one request at a time per chat *)
  active ← get_active;
  if bool_decide (chat_id ∈ active)
  then message_reply env message wait_for_previous;; mret tt
  else
    active_add chat_id;;
    call (EvSaveUsage chat "gemini") (save_usage env chat "gemini");;
    try_finally
      (try_except
         (prompt ← prompt_of message;
          if String.eqb prompt ""
          then
            message_reply env message write_your_prompt;;
            active_discard chat_id;;
            mret tt
          else
            waiting_msg ← message_reply env message wait_a_moment;
            response ← call (EvGenerate (GEMINI_MODEL cfg) prompt)
                            (generate_content env (GEMINI_MODEL cfg) prompt);
            response_text ← checked_len response;
            (if Py.len response_text >? limit
             then send_parts message (parts_of response_text)
             else message_reply env message (answer response_text);; mret tt);;
            call (EvDelete waiting_msg) (delete env waiting_msg))
         (fun e => message_reply env message (sorry e);; mret tt))
      (active_discard chat_id).

End Gemini.

(** ** Concrete worlds

    A scenario fixes the answer of every collaborator once and for all;
    replies and deletions are always delivered.  The world has no state of
    its own. *)

Module Scenario.

Record t := {
  chat_answer : outcome Chat;
  bot_answer : outcome ChatMember;
  member_answer : Z -> outcome ChatMember;
  admins_answer : outcome (list ChatMember);
  target_answer : outcome (option User * string);
  usage_answer : outcome unit;
  response_answer : outcome (option string)
}.

(** The message the platform hands back for a reply to [m]. *)
Definition sent (m : Message) (body : string) : Message :=
  {| message_id := message_id m + 1;
     chat := chat m;
     from_user := None;
     text := Some body |}.

Definition collaborators (s : t) : Collaborators unit :=
  {| get_chat := fun _ w => (chat_answer s, w);
     get_chat_member := fun _ who w =>
       (match who with
        | Me => bot_answer s
        | UserRef uid => member_answer s uid
        end, w);
     get_chat_administrators := fun _ w => (admins_answer s, w);
     extract_user_and_reason := fun _ w => (target_answer s, w);
     reply := fun m body w => (Return (sent m body), w);
     delete := fun _ w => (Return tt, w);
     save_usage := fun _ _ w => (usage_answer s, w);
     generate_content := fun _ _ w => (response_answer s, w) |}.

Definition start : state unit :=
  {| world := tt; trace := []; active_gemini_requests := ∅ |}.

Definition group : Chat := {| chat_id := -1001; chat_type := SUPERGROUP |}.

Definition alice : User := {| user_id := 7 |}.
Definition bob : User := {| user_id := 8 |}.

Definition member_of (u : User) (s : ChatMemberStatus)
    (p : option (gmap string bool)) : ChatMember :=
  {| user := u; status := s; privileges := p |}.

(** [/ban] sent by alice in the group. *)
Definition ban_message : Message :=
  {| message_id := 100;
     chat := group;
     from_user := Some alice;
     text := Some "/ban @bob spam" |}.

(** [/gemini] with a prompt, sent by alice in the group. *)
Definition gemini_message : Message :=
  {| message_id := 200;
     chat := group;
     from_user := Some alice;
     text := Some "/gemini what is the capital of France?" |}.

Definition config : Config :=
  {| BOT_USERNAME := "ShinBot";
     GEMINI_API_KEY := "key";
     GEMINI_MODEL := "gemini-2.5-flash" |}.

(** A command body that does its work and returns [None], and one that
    fails. *)
Definition body_ok : Message -> unit -> outcome (option unit) * unit :=
  fun _ w => (Return None, w).
Definition body_fails : Message -> unit -> outcome (option unit) * unit :=
  fun _ w => (Raise (OtherException "ban failed"), w).

(** The bot is an administrator, alice owns the group, bob is an ordinary
    member, every collaborator answers. *)
Definition healthy : t :=
  {| chat_answer := Return group;
     bot_answer := Return (member_of {| user_id := 1 |} ADMINISTRATOR None);
     member_answer := fun uid =>
       if Z.eqb uid 7 then Return (member_of alice OWNER None)
       else Return (member_of {| user_id := uid |} MEMBER None);
     admins_answer := Return [member_of alice OWNER None];
     target_answer := Return (Some bob, "spam");
     usage_answer := Return tt;
     response_answer := Return (Some "Paris.") |}.

(** As [healthy], but the bot is an ordinary member of the group. *)
Definition bot_is_member : t :=
  {| chat_answer := Return group;
     bot_answer := Return (member_of {| user_id := 1 |} MEMBER None);
     member_answer := member_answer healthy;
     admins_answer := admins_answer healthy;
     target_answer := target_answer healthy;
     usage_answer := Return tt;
     response_answer := response_answer healthy |}.

(** The platform does not answer [get_chat]. *)
Definition chat_unreachable : t :=
  {| chat_answer := Raise (OtherException "connection lost");
     bot_answer := bot_answer healthy;
     member_answer := member_answer healthy;
     admins_answer := admins_answer healthy;
     target_answer := target_answer healthy;
     usage_answer := Return tt;
     response_answer := response_answer healthy |}.

(** The target extraction fails. *)
Definition extraction_fails : t :=
  {| chat_answer := Return group;
     bot_answer := bot_answer healthy;
     member_answer := member_answer healthy;
     admins_answer := admins_answer healthy;
     target_answer := Raise (OtherException "no such user");
     usage_answer := Return tt;
     response_answer := response_answer healthy |}.

(** Alice is an administrator who may delete messages but not ban. *)
Definition admin_without_ban : t :=
  {| chat_answer := Return group;
     bot_answer := bot_answer healthy;
     member_answer := fun _ =>
       Return (member_of alice ADMINISTRATOR
                 (Some {[ "can_delete_messages" := true ]}));
     admins_answer := admins_answer healthy;
     target_answer := target_answer healthy;
     usage_answer := Return tt;
     response_answer := response_answer healthy |}.

(** The direct lookup of any user fails with [e]; the administrator list
    is delivered and names alice as the owner. *)
Definition lookup_fails (e : exn) : t :=
  {| chat_answer := Return group;
     bot_answer := bot_answer healthy;
     member_answer := fun _ => Raise e;
     admins_answer := Return [member_of alice OWNER None];
     target_answer := target_answer healthy;
     usage_answer := Return tt;
     response_answer := response_answer healthy |}.

(** The usage log cannot be written. *)
Definition usage_fails : t :=
  {| chat_answer := Return group;
     bot_answer := bot_answer healthy;
     member_answer := member_answer healthy;
     admins_answer := admins_answer healthy;
     target_answer := target_answer healthy;
     usage_answer := Raise (OtherException "disk full");
     response_answer := response_answer healthy |}.

(** A second request in the same group, from bob. *)
Definition next_gemini_message : Message :=
  {| message_id := 300;
     chat := group;
     from_user := Some bob;
     text := Some "/gemini and of Spain?" |}.

(** A text of [n] characters. *)
Fixpoint filler (n : nat) : string :=
  match n with
  | O => ""
  | S n' => String "a" (filler n')
  end.

Definition long_text : string := filler (Z.to_nat 8001).

(** The backend answers with [long_text]. *)
Definition long_answer : t :=
  {| chat_answer := Return group;
     bot_answer := bot_answer healthy;
     member_answer := member_answer healthy;
     admins_answer := admins_answer healthy;
     target_answer := target_answer healthy;
     usage_answer := Return tt;
     response_answer := Return (Some long_text) |}.

(** A one-to-one chat with alice, and a message sent there. *)
Definition dm : Chat := {| chat_id := 7; chat_type := PRIVATE |}.

Definition dm_message : Message :=
  {| message_id := 400;
     chat := dm;
     from_user := Some alice;
     text := Some "/ban" |}.

(** Every lookup fails or denies, but the chat is private. *)
Definition private_chat : t :=
  {| chat_answer := Return dm;
     bot_answer := Raise (OtherException "no members in a private chat");
     member_answer := fun _ => Raise (OtherException "no members in a private chat");
     admins_answer := Raise (OtherException "no members in a private chat");
     target_answer := Return (None, "");
     usage_answer := Return tt;
     response_answer := response_answer healthy |}.

(** The bot's own status cannot be looked up. *)
Definition bot_lookup_fails : t :=
  {| chat_answer := Return group;
     bot_answer := Raise (OtherException "CHANNEL_PRIVATE");
     member_answer := member_answer healthy;
     admins_answer := admins_answer healthy;
     target_answer := target_answer healthy;
     usage_answer := Return tt;
     response_answer := response_answer healthy |}.

(** The backend fails. *)
Definition backend_fails : t :=
  {| chat_answer := Return group;
     bot_answer := bot_answer healthy;
     member_answer := member_answer healthy;
     admins_answer := admins_answer healthy;
     target_answer := target_answer healthy;
     usage_answer := Return tt;
     response_answer := Raise (OtherException "503 UNAVAILABLE") |}.

(** Whitespace after the command: a blank, a no-break space (U+00A0) and
    a next-line character (U+0085). *)
Definition blanks : string :=
  String " " (String (ascii_of_nat 160) (String (ascii_of_nat 133) "")).

(** The command alone, followed by [blanks]. *)
Definition bare_gemini_message : Message :=
  {| message_id := 500;
     chat := group;
     from_user := Some alice;
     text := Some ("/gemini" +:+ blanks) |}.

(** A request for the group is in flight. *)
Definition group_busy : state unit :=
  {| world := tt; trace := []; active_gemini_requests := {[ -1001 ]} |}.

(** A request for another chat is in flight. *)
Definition other_busy : state unit :=
  {| world := tt; trace := []; active_gemini_requests := {[ 42 ]} |}.

(** A command body that hits an administrator. *)
Definition body_hits_admin : Message -> unit -> outcome (option unit) * unit :=
  fun _ w => (Raise (UserAdminInvalid "USER_ADMIN_INVALID"), w).

(** [ban_message] as sent by an anonymous administrator. *)
Definition anonymous_ban_message : Message :=
  {| message_id := 100;
     chat := group;
     from_user := None;
     text := Some "/ban @bob spam" |}.

(** The bot is an ordinary member; bob, the target, is an administrator. *)
Definition blind_bot : t :=
  {| chat_answer := Return group;
     bot_answer := Return (member_of {| user_id := 1 |} MEMBER None);
     member_answer := fun uid =>
       if Z.eqb uid 8 then Return (member_of bob ADMINISTRATOR None)
       else member_answer healthy uid;
     admins_answer := Return [member_of alice OWNER None;
                              member_of bob ADMINISTRATOR None];
     target_answer := Return (Some bob, "spam");
     usage_answer := Return tt;
     response_answer := response_answer healthy |}.

(** Alice is an administrator who may ban. *)
Definition admin_with_ban : t :=
  {| chat_answer := Return group;
     bot_answer := bot_answer healthy;
     member_answer := fun _ =>
       Return (member_of alice ADMINISTRATOR
                 (Some {[ "ban_members" := true ]}));
     admins_answer := admins_answer healthy;
     target_answer := target_answer healthy;
     usage_answer := Return tt;
     response_answer := response_answer healthy |}.

End Scenario.

(** ** Vocabulary of the statements *)

(** Every reply reaches the platform. *)
Definition replies_delivered {W} (env : Collaborators W) : Prop :=
  forall m body w, exists sent w', reply env m body w = (Return sent, w').

(** Every deletion reaches the platform. *)
Definition deletions_delivered {W} (env : Collaborators W) : Prop :=
  forall m w, exists w', delete env m w = (Return tt, w').

(** Computations that leave the set alone or discard [cid] from it. *)
Definition only_discards {W A} (cid : Z) (m : M W A) : Prop :=
  forall st,
    active_gemini_requests (snd (m st)) = active_gemini_requests st \/
    active_gemini_requests (snd (m st)) = active_gemini_requests st ∖ {[cid]}.

(** How a gated command can end without raising: with the result of a
    run of the body that returned, or with a reply to the message as the
    last call and the result [None]. *)
Definition body_result_or_reply {W R} (func : Message -> M W (option R))
    (msg : Message) (res : outcome (option R) * state W) : Prop :=
  (exists st3 r, func msg st3 = res /\ fst res = Return r) \/
  (fst res = Return None /\
   exists st2 body w, snd res = step st2 (EvReply msg body) w).

(** The lookups on the chat platform. *)
Definition is_lookup (ev : event) : bool :=
  match ev with
  | EvGetChat _ | EvGetChatMember _ _ | EvGetChatAdministrators _ => true
  | _ => false
  end.

(** [''.join(parts)] *)
Definition join (parts : list string) : string :=
  foldr String.append "" parts.

(** A string of whitespace only (possibly empty). *)
Fixpoint all_space (s : string) : bool :=
  match s with
  | EmptyString => true
  | String c r => Py.is_space c && all_space r
  end.

(** The calls by which the handler sends a response text: one reply
    with the label and the text, or, for each part in turn, one reply
    with the label and the part and one pause.  The label is the
    title-cased model name between asterisks. *)
Definition answer_events (cfg : Config) (msg : Message) (response_text : string)
    : list event :=
  if Py.len response_text >? limit
  then flat_map (fun part =>
                   [EvReply msg ("**" +:+ Py.title (GEMINI_MODEL cfg) +:+
                                 ":** " +:+ part);
                    EvSleep])
                (parts_of response_text)
  else [EvReply msg ("**" +:+ Py.title (GEMINI_MODEL cfg) +:+ ":** " +:+
                     response_text)].

(** * Properties *)

Ltac unfold_M :=
  unfold try_except, try_finally, and_then, mbind, M_bind, bind, call,
         mret, M_ret, ret, raise.

(** Reduce the projections of a [step]ped state, nothing else. *)
Ltac sim := cbn [world trace active_gemini_requests step fst snd negb].

(** Use the answer [H] of the next collaborator call. *)
Tactic Notation "answer_with" constr(H) := rewrite H; sim.

(** ** The permission resolver *)

Section ResolverFacts.
Context {W : Type} (env : Collaborators W).

Lemma check_admin_permissions_returns cid uid (st : state W) :
  exists b st', check_admin_permissions env cid uid st = (Return b, st').
Proof.
  unfold check_admin_permissions. unfold_M.
  repeat case_match; simplify_eq; eauto.
Qed.

Lemma owner_or_administrator_spec s :
  owner_or_administrator s = bool_decide (s = OWNER \/ s = ADMINISTRATOR).
Proof. by destruct s. Qed.

Lemma find_admin_spec uid admins :
  is_Some (find_admin uid admins) <->
  exists a, a ∈ admins /\ user_id (user a) = uid.
Proof.
  unfold find_admin. induction admins as [|a l IH]; simpl.
  - split; [intros [? ?]; discriminate | intros (a & Ha & _); inversion Ha].
  - destruct (Z.eqb_spec (user_id (user a)) uid) as [Heq | Hne].
    + split; [intros _; exists a; split; [left | done] | eauto].
    + rewrite IH. split.
      * intros (b & Hb & Hid). exists b. split; [by right | done].
      * intros (b & Hb & Hid). apply elem_of_cons in Hb as [-> | Hb]; [done |].
        by exists b.
Qed.

(** C9. [check_admin_permissions] never raises: whatever the collaborators
    answer, and whether they answer or fail, it returns a boolean; and
    when the initial [get_chat] fails, that boolean is [False]. *)
Theorem check_admin_permissions_never_raises cid uid (st : state W) :
  (exists b st', check_admin_permissions env cid uid st = (Return b, st')) /\
  (forall e w',
     get_chat env cid (world st) = (Raise e, w') ->
     check_admin_permissions env cid uid st
       = (Return false, step st (EvGetChat cid) w')).
Proof.
  split; [apply check_admin_permissions_returns |].
  intros e w' Hchat. unfold check_admin_permissions. unfold_M.
  by rewrite Hchat.
Qed.

(** C3, as the code has it.  In a non-private chat in which the bot's own
    lookup fails or reports owner or administrator:
    - when the direct lookup of the user succeeds, the result is [True]
      exactly for the statuses owner and administrator;
    - when the direct lookup fails with anything but [UserAdminInvalid]
      and the administrator list is delivered, the result is [True]
      exactly when an entry of the list carries the user's id;
    - when the list is not delivered either, the result is [False]. *)
Theorem check_admin_permissions_by_status cid uid (st : state W) ch w1 rb w2
    (Hchat : get_chat env cid (world st) = (Return ch, w1))
    (Hgroup : is_private ch = false)
    (Hbot : get_chat_member env cid Me w1 = (rb, w2))
    (Hbot_ok : forall bot, rb = Return bot ->
                 owner_or_administrator (status bot) = true) :
  let st2 := step (step st (EvGetChat cid) w1) (EvGetChatMember cid Me) w2 in
  (forall member w3,
     get_chat_member env cid (UserRef uid) w2 = (Return member, w3) ->
     check_admin_permissions env cid uid st
       = (Return (bool_decide (status member = OWNER \/
                               status member = ADMINISTRATOR)),
          step st2 (EvGetChatMember cid (UserRef uid)) w3)) /\
  (forall e w3,
     get_chat_member env cid (UserRef uid) w2 = (Raise e, w3) ->
     (forall m, e <> UserAdminInvalid m) ->
     let st3 := step st2 (EvGetChatMember cid (UserRef uid)) w3 in
     (forall admins w4,
        get_chat_administrators env cid w3 = (Return admins, w4) ->
        exists b,
          check_admin_permissions env cid uid st
            = (Return b, step st3 (EvGetChatAdministrators cid) w4) /\
          (b = true <-> exists a, a ∈ admins /\ user_id (user a) = uid)) /\
     (forall e2 w4,
        get_chat_administrators env cid w3 = (Raise e2, w4) ->
        check_admin_permissions env cid uid st
          = (Return false, step st3 (EvGetChatAdministrators cid) w4))).
Proof.
  intros st2. split.
  - intros member w3 Hmember.
    unfold check_admin_permissions. unfold_M.
    answer_with Hchat. answer_with Hgroup. answer_with Hbot.
    destruct rb as [bot | eb]; rewrite ?(Hbot_ok _ eq_refl); sim;
      answer_with Hmember;
      rewrite owner_or_administrator_spec; by case_bool_decide.
  - intros e w3 Hmember Hkind st3. split.
    + intros admins w4 Hadmins.
      exists (bool_decide (is_Some (find_admin uid admins))). split.
      * unfold check_admin_permissions. unfold_M.
        answer_with Hchat. answer_with Hgroup. answer_with Hbot.
        destruct rb as [bot | eb]; rewrite ?(Hbot_ok _ eq_refl); sim;
          answer_with Hmember;
          (destruct e; [by edestruct Hkind | ..]); sim; answer_with Hadmins;
          by destruct (find_admin uid admins).
      * rewrite bool_decide_eq_true. apply find_admin_spec.
    + intros e2 w4 Hadmins.
      unfold check_admin_permissions. unfold_M.
      answer_with Hchat. answer_with Hgroup. answer_with Hbot.
      destruct rb as [bot | eb]; rewrite ?(Hbot_ok _ eq_refl); sim;
        answer_with Hmember;
        (destruct e; [by edestruct Hkind | ..]); sim; by answer_with Hadmins.
Qed.

End ResolverFacts.

(** C9 at work: [get_chat] fails, the resolver answers [False]. *)
Lemma check_admin_permissions_never_raises_witness :
  check_admin_permissions
    (Scenario.collaborators Scenario.chat_unreachable) (-1001) 7 Scenario.start
  = (Return false, step Scenario.start (EvGetChat (-1001)) tt).
Proof.
  apply (proj2 (check_admin_permissions_never_raises
                  (Scenario.collaborators Scenario.chat_unreachable)
                  (-1001) 7 Scenario.start)
               (OtherException "connection lost") tt).
  reflexivity.
Defined.

(** C3 as stated fails: alice owns the group, the direct lookup says so,
    and the resolver still answers [False], because the bot itself is an
    ordinary member there. *)
Lemma check_admin_permissions_refuses_owner :
  is_private Scenario.group = false /\
  get_chat_member (Scenario.collaborators Scenario.bot_is_member)
                  (-1001) (UserRef 7) tt
    = (Return (Scenario.member_of Scenario.alice OWNER None), tt) /\
  fst (check_admin_permissions
         (Scenario.collaborators Scenario.bot_is_member) (-1001) 7
         Scenario.start)
    = Return false.
Proof. repeat split; reflexivity. Qed.

(** C3 as amended, at work: with the bot an administrator, the owner is
    recognised through the direct lookup. *)
Lemma check_admin_permissions_by_status_witness :
  fst (check_admin_permissions
         (Scenario.collaborators Scenario.healthy) (-1001) 7 Scenario.start)
    = Return true.
Proof.
  assert (Hbot : forall bot,
            Return (Scenario.member_of {| user_id := 1 |} ADMINISTRATOR None)
              = Return bot ->
            owner_or_administrator (status bot) = true).
  { intros bot Heq. injection Heq as <-. reflexivity. }
  rewrite (proj1 (check_admin_permissions_by_status
                    (Scenario.collaborators Scenario.healthy) (-1001) 7
                    Scenario.start Scenario.group tt _ tt
                    eq_refl eq_refl eq_refl Hbot)
                 (Scenario.member_of Scenario.alice OWNER None) tt eq_refl).
  reflexivity.
Defined.

(** ** The command gates *)

Section GateFacts.
Context {W R : Type} (env : Collaborators W).

Implicit Types func : @handler W R.


(** One step of a case analysis over a gate: use that replies are
    delivered and that the resolver returns, or split on the next answer
    of a collaborator or of the body, or on the next test. *)
Ltac gate_step Hreplies func msg :=
  sim;
  first
    [ match goal with
      | |- context [reply ?e ?m ?b ?w] =>
          let H := fresh "Hsent" in
          destruct (Hreplies m b w) as (? & ? & H); rewrite H
      end
    | match goal with
      | |- context [check_admin_permissions ?e ?c ?u ?s] =>
          let H := fresh "Hres" in
          destruct (check_admin_permissions_returns e c u s) as (? & ? & H);
          rewrite H
      end
    | match goal with
      | |- context [get_chat ?e ?c ?w] =>
          destruct (get_chat e c w) as [[? | ?] ?] eqn:?
      | |- context [get_chat_member ?e ?c ?r ?w] =>
          destruct (get_chat_member e c r w) as [[? | ?] ?] eqn:?
      | |- context [get_chat_administrators ?e ?c ?w] =>
          destruct (get_chat_administrators e c w) as [[? | ?] ?] eqn:?
      | |- context [extract_user_and_reason ?e ?m ?w] =>
          destruct (extract_user_and_reason e m w) as [[[? ?] | ?] ?] eqn:?
      | |- context [func msg ?s] =>
          destruct (func msg s) as [[? | ?] ?] eqn:?
      | |- context [match ?x with
                    | UserAdminInvalid _ => _ | AttributeError _ => _
                    | TypeError _ => _ | OtherException _ => _
                    end] => destruct x
      | |- context [match ?x with Some _ => _ | None => _ end] =>
          destruct x eqn:?
      | |- context [if ?b then _ else _] => destruct b eqn:?
      end ].

Ltac gate_done :=
  sim;
  first
    [ exact I
    | right; split; [reflexivity | by eexists _, _, _]
    | left; eexists _, _; split; [eassumption | reflexivity] ].

Lemma admin_only_ends func msg (st : state W) :
  replies_delivered env ->
  body_result_or_reply func msg (admin_only env func msg st).
Proof.
  intros Hreplies.
  unfold admin_only, from_user_id, message_reply. unfold_M.
  repeat gate_step Hreplies func msg; gate_done.
Qed.

Lemma require_permission_ends permission func msg (st : state W) u :
  replies_delivered env ->
  is_private (chat msg) = false ->
  from_user msg = Some u ->
  body_result_or_reply func msg (require_permission env permission func msg st).
Proof.
  intros Hreplies Hgroup Huser.
  unfold require_permission, from_user_id, message_reply.
  rewrite Hgroup, Huser. unfold_M.
  repeat gate_step Hreplies func msg; gate_done.
Qed.

Lemma protect_admins_ends func msg (st : state W) :
  replies_delivered env ->
  match protect_admins env func msg st with
  | (Return r, st') => body_result_or_reply func msg (Return r, st')
  | (Raise _, _) => True
  end.
Proof.
  intros Hreplies.
  unfold protect_admins, from_user_id, message_reply. unfold_M.
  repeat gate_step Hreplies func msg; gate_done.
Qed.

(** C4, as the code has it.  As long as replies are delivered:
    - every run of [admin_only], whatever its lookups, the resolver and
      the wrapped body do, ends with the result of a run of the body
      that returned, or with a reply as the last call and the result
      [None]; nothing is raised;
    - so does every run of [require_permission] on a message with a
      sender in a non-private chat;
    - [protect_admins] has no handler of its own: when its [get_chat]
      fails, or in a non-private chat its target extraction fails, the
      exception leaves the wrapper and no reply is sent;
    - applied under [admin_only], as its docstring prescribes, nothing
      escapes: every run of [admin_only (protect_admins func)] ends with
      the result of a run of [func] that returned, or with a reply as
      the last call and the result [None]. *)
Theorem gates_catch_under_admin_only func msg
    (Hreply : replies_delivered env) :
  (forall st, body_result_or_reply func msg (admin_only env func msg st)) /\
  (forall permission u st,
     is_private (chat msg) = false ->
     from_user msg = Some u ->
     body_result_or_reply func msg
       (require_permission env permission func msg st)) /\
  (forall (st : state W) e w1,
     get_chat env (chat_id (chat msg)) (world st) = (Raise e, w1) ->
     protect_admins env func msg st
       = (Raise e, step st (EvGetChat (chat_id (chat msg))) w1)) /\
  (forall (st : state W) ch w1 e w2,
     get_chat env (chat_id (chat msg)) (world st) = (Return ch, w1) ->
     is_private ch = false ->
     extract_user_and_reason env msg w1 = (Raise e, w2) ->
     protect_admins env func msg st
       = (Raise e, step (step st (EvGetChat (chat_id (chat msg))) w1)
                        (EvExtract msg) w2)) /\
  (forall st,
     body_result_or_reply func msg
       (admin_only env (protect_admins env func) msg st)).
Proof.
  split; [| split; [| split; [| split]]].
  - intros st. by apply admin_only_ends.
  - intros permission u st Hgroup Huser. by eapply require_permission_ends.
  - intros st e w1 Hchat. unfold protect_admins. unfold_M.
    by answer_with Hchat.
  - intros st ch w1 e w2 Hchat Hgroup Hextract. unfold protect_admins. unfold_M.
    answer_with Hchat. answer_with Hgroup. by answer_with Hextract.
  - intros st.
    destruct (admin_only_ends (protect_admins env func) msg st Hreply)
      as [(st3 & r & Hrun & Hr) | Hlast]; [| by right].
    pose proof (protect_admins_ends func msg st3 Hreply) as Hinner.
    rewrite Hrun in Hinner.
    destruct (admin_only env (protect_admins env func) msg st) as [o st'].
    cbn [fst] in Hr. subst o. exact Hinner.
Qed.

(** What is left of [require_permission] once the chat is known not to
    be private, the bot's status has passed and the sender is known. *)
Lemma require_permission_past_bot_check permission func msg (st : state W)
    bot w1 u :
  is_private (chat msg) = false ->
  get_chat_member env (chat_id (chat msg)) Me (world st) = (Return bot, w1) ->
  owner_or_administrator (status bot) = true ->
  from_user msg = Some u ->
  require_permission env permission func msg st
  = try_except
      (member ← call (EvGetChatMember (chat_id (chat msg)) (UserRef (user_id u)))
                     (get_chat_member env (chat_id (chat msg)) (UserRef (user_id u)));
       if bool_decide (status member = OWNER) then func msg
       else if bool_decide (status member = ADMINISTRATOR) then
         if has_privilege member permission then func msg
         else message_reply env msg (need_permission permission);; mret None
       else message_reply env msg admins_only;; mret None)
      (fun e =>
         match e with
         | UserAdminInvalid _ => message_reply env msg user_unverified;; mret None
         | _ =>
             try_except
               (admins ← call (EvGetChatAdministrators (chat_id (chat msg)))
                              (get_chat_administrators env (chat_id (chat msg)));
                match find_admin (user_id u) admins with
                | Some admin =>
                    if bool_decide (status admin = OWNER) then func msg
                    else if has_privilege admin permission then func msg
                    else message_reply env msg (need_permission permission);;
                         mret None
                | None => message_reply env msg admins_only;; mret None
                end)
               (fun _ => message_reply env msg permission_check_error;; mret None)
         end)
      (step st (EvGetChatMember (chat_id (chat msg)) Me) w1).
Proof.
  intros Hgroup Hbot Hbot_ok Huser.
  unfold require_permission, from_user_id. rewrite Hgroup, Huser.
  unfold and_then, mbind, M_bind, bind at 1 2 3, try_except at 1, call at 1.
  answer_with Hbot. rewrite Hbot_ok. reflexivity.
Qed.

(** C6. [require_permission] in a non-private chat, once the bot's own
    status has passed and the direct lookup of the sender has succeeded:
    - an owner is handed to the wrapped body;
    - an administrator whose privilege set has the flag named
      [permission] set is handed to the wrapped body; an administrator
      without a privilege set, or whose set lacks the flag or has it
      unset, is answered with the message that spells out [permission];
    - every other status is answered with the administrators-only
      message.
    In the rejecting cases the final state does not depend on [func]: the
    body is not run. *)
Theorem require_permission_direct permission func msg (st : state W)
    bot w1 u member w2
    (Hgroup : is_private (chat msg) = false)
    (Hbot : get_chat_member env (chat_id (chat msg)) Me (world st)
              = (Return bot, w1))
    (Hbot_ok : owner_or_administrator (status bot) = true)
    (Huser : from_user msg = Some u)
    (Hmember : get_chat_member env (chat_id (chat msg)) (UserRef (user_id u)) w1
                 = (Return member, w2)) :
  let st2 := step (step st (EvGetChatMember (chat_id (chat msg)) Me) w1)
                  (EvGetChatMember (chat_id (chat msg)) (UserRef (user_id u))) w2 in
  let missing :=
    "❌ You need the `" +:+ permission +:+ "` permission to use this command." in
  (status member = OWNER ->
   forall r st3,
     func msg st2 = (Return r, st3) ->
     require_permission env permission func msg st = (Return r, st3)) /\
  (status member = ADMINISTRATOR ->
   (forall flags,
      privileges member = Some flags ->
      flags !! permission = Some true ->
      forall r st3,
        func msg st2 = (Return r, st3) ->
        require_permission env permission func msg st = (Return r, st3)) /\
   (privileges member = None \/
    (exists flags, privileges member = Some flags /\
                   flags !! permission <> Some true) ->
    forall sent w3,
      reply env msg missing w2 = (Return sent, w3) ->
      require_permission env permission func msg st
        = (Return None, step st2 (EvReply msg missing) w3))) /\
  (status member <> OWNER ->
   status member <> ADMINISTRATOR ->
   forall sent w3,
     reply env msg "❌ This command is only available to administrators." w2
       = (Return sent, w3) ->
     require_permission env permission func msg st
       = (Return None,
          step st2 (EvReply msg
                      "❌ This command is only available to administrators.")
               w3)).
Proof.
  intros st2 missing. subst st2 missing.
  rewrite (require_permission_past_bot_check permission func msg st bot w1 u)
    by done.
  unfold message_reply. unfold_M. sim. answer_with Hmember.
  split; [| split].
  - intros Hs r st3 Hfunc. rewrite Hs. rewrite bool_decide_eq_true_2 by done.
    by rewrite Hfunc.
  - intros Hs. rewrite Hs. rewrite bool_decide_eq_false_2 by done.
    rewrite bool_decide_eq_true_2 by done. split.
    + intros flags Hflags Hflag r st3 Hfunc.
      unfold has_privilege. rewrite Hflags, Hflag.
      cbn [default from_option id]. sim. by rewrite Hfunc.
    + intros Hlacks sent w3 Hreply.
      assert (Hpriv : has_privilege member permission = false).
      { unfold has_privilege.
        destruct Hlacks as [-> | (flags & -> & Hflag)]; [done |].
        by destruct (flags !! permission) as [[|] |]. }
      rewrite Hpriv. sim. unfold need_permission. by answer_with Hreply.
  - intros Hs1 Hs2 sent w3 Hreply. rewrite !bool_decide_eq_false_2 by done.
    sim. unfold admins_only. by answer_with Hreply.
Qed.

(** C7, as the code has it.  [require_permission] in a non-private chat,
    once the bot's own status has passed and the direct lookup of the
    sender has failed with [e]:
    - for [UserAdminInvalid] there is no fallback: the sender is answered
      that the permissions could not be verified;
    - for every other [e] the administrator list is fetched, and the first
      entry with the sender's id decides: an owner, or an entry whose
      named flag is truthy, is handed to the wrapped body; another entry
      is answered with the message naming [permission]; without an entry
      the answer is the administrators-only message;
    - when fetching the list fails, the answer is the generic error. *)
Theorem require_permission_fallback permission func msg (st : state W)
    bot w1 u e w2
    (Hgroup : is_private (chat msg) = false)
    (Hbot : get_chat_member env (chat_id (chat msg)) Me (world st)
              = (Return bot, w1))
    (Hbot_ok : owner_or_administrator (status bot) = true)
    (Huser : from_user msg = Some u)
    (Hmember : get_chat_member env (chat_id (chat msg)) (UserRef (user_id u)) w1
                 = (Raise e, w2)) :
  let st2 := step (step st (EvGetChatMember (chat_id (chat msg)) Me) w1)
                  (EvGetChatMember (chat_id (chat msg)) (UserRef (user_id u))) w2 in
  ((exists m, e = UserAdminInvalid m) ->
   forall sent w3,
     reply env msg user_unverified w2 = (Return sent, w3) ->
     require_permission env permission func msg st
       = (Return None, step st2 (EvReply msg user_unverified) w3)) /\
  ((forall m, e <> UserAdminInvalid m) ->
   (forall admins w3,
      get_chat_administrators env (chat_id (chat msg)) w2 = (Return admins, w3) ->
      let st3 := step st2 (EvGetChatAdministrators (chat_id (chat msg))) w3 in
      (forall admin,
         find_admin (user_id u) admins = Some admin ->
         status admin = OWNER \/ has_privilege admin permission = true ->
         forall r st4,
           func msg st3 = (Return r, st4) ->
           require_permission env permission func msg st = (Return r, st4)) /\
      (forall admin,
         find_admin (user_id u) admins = Some admin ->
         status admin <> OWNER ->
         has_privilege admin permission = false ->
         forall sent w4,
           reply env msg (need_permission permission) w3 = (Return sent, w4) ->
           require_permission env permission func msg st
             = (Return None,
                step st3 (EvReply msg (need_permission permission)) w4)) /\
      (find_admin (user_id u) admins = None ->
       forall sent w4,
         reply env msg admins_only w3 = (Return sent, w4) ->
         require_permission env permission func msg st
           = (Return None, step st3 (EvReply msg admins_only) w4))) /\
   (forall e2 w3,
      get_chat_administrators env (chat_id (chat msg)) w2 = (Raise e2, w3) ->
      forall sent w4,
        reply env msg permission_check_error w3 = (Return sent, w4) ->
        require_permission env permission func msg st
          = (Return None,
             step (step st2 (EvGetChatAdministrators (chat_id (chat msg))) w3)
                  (EvReply msg permission_check_error) w4))).
Proof.
  intros st2. subst st2.
  rewrite (require_permission_past_bot_check permission func msg st bot w1 u)
    by done.
  unfold message_reply. unfold_M. sim. answer_with Hmember.
  split.
  - intros [m ->] sent w3 Hreply. sim. by answer_with Hreply.
  - intros Hkind.
    assert (Hother :
      forall (A : Type) (x y : A),
        match e with UserAdminInvalid _ => x | _ => y end = y).
    { intros A x y. destruct e; [by edestruct Hkind | done ..]. }
    rewrite Hother. clear Hother. sim. split.
    + intros admins w3 Hadmins. answer_with Hadmins.
      split; [| split].
      * intros admin -> Hpass r st4 Hfunc.
        destruct Hpass as [Ho | Hp].
        -- rewrite bool_decide_eq_true_2 by done. by rewrite Hfunc.
        -- case_bool_decide; rewrite ?Hp; by rewrite Hfunc.
      * intros admin -> Ho Hp sent w4 Hreply.
        rewrite bool_decide_eq_false_2 by done. rewrite Hp. sim.
        by answer_with Hreply.
      * intros -> sent w4 Hreply. sim. by answer_with Hreply.
    + intros e2 w3 Hadmins sent w4 Hreply. answer_with Hadmins.
      by answer_with Hreply.
Qed.


End GateFacts.

(** ** The gates at work *)

Section GateRuns.
Import Scenario.


Lemma scenario_replies_delivered s : replies_delivered (collaborators s).
Proof. intros m body w. by eexists _, _. Qed.

(** C4 as stated fails for [protect_admins]: a failure of its own
    [get_chat], or of the target extraction, leaves the wrapper as an
    exception, with no reply. *)
Lemma protect_admins_propagates :
  protect_admins (collaborators chat_unreachable) (invoke body_ok)
                 ban_message start
    = (Raise (OtherException "connection lost"),
       step start (EvGetChat (-1001)) tt) /\
  protect_admins (collaborators extraction_fails) (invoke body_ok)
                 ban_message start
    = (Raise (OtherException "no such user"),
       step (step start (EvGetChat (-1001)) tt) (EvExtract ban_message) tt).
Proof. split; reflexivity. Qed.

(** C4 as amended, at work: with the platform unreachable and a failing
    body, [admin_only] ends in a reply, alone and around
    [protect_admins], while [protect_admins] alone raises. *)
Lemma gates_catch_under_admin_only_witness :
  body_result_or_reply (invoke body_fails) ban_message
    (admin_only (collaborators chat_unreachable) (invoke body_fails)
       ban_message start) /\
  protect_admins (collaborators chat_unreachable) (invoke body_fails)
                 ban_message start
    = (Raise (OtherException "connection lost"),
       step start (EvGetChat (chat_id (chat ban_message))) tt) /\
  body_result_or_reply (invoke body_fails) ban_message
    (admin_only (collaborators chat_unreachable)
       (protect_admins (collaborators chat_unreachable) (invoke body_fails))
       ban_message start).
Proof.
  destruct (gates_catch_under_admin_only (collaborators chat_unreachable)
              (invoke body_fails) ban_message
              (scenario_replies_delivered chat_unreachable))
    as (Hadmin & _ & Hchat & _ & Hboth).
  split; [apply Hadmin | split; [| apply Hboth]].
  apply (Hchat start (OtherException "connection lost") tt). reflexivity.
Defined.

(** C6 at work: an administrator without [ban_members] is told so, in
    these words, and the body is not run; an administrator with
    [ban_members], and the owner, are handed to the body. *)
Lemma require_permission_direct_witness :
  require_permission (collaborators admin_without_ban) "ban_members"
                     (invoke body_ok) ban_message start
  = (Return None,
     {| world := tt;
        trace := [EvGetChatMember (-1001) Me;
                  EvGetChatMember (-1001) (UserRef 7);
                  EvReply ban_message
                    "❌ You need the `ban_members` permission to use this command."];
        active_gemini_requests := ∅ |}) /\
  require_permission (collaborators admin_with_ban) "ban_members"
                     (invoke body_ok) ban_message start
  = (Return None,
     {| world := tt;
        trace := [EvGetChatMember (-1001) Me;
                  EvGetChatMember (-1001) (UserRef 7);
                  EvFunc ban_message];
        active_gemini_requests := ∅ |}) /\
  require_permission (collaborators healthy) "ban_members"
                     (invoke body_ok) ban_message start
  = (Return None,
     {| world := tt;
        trace := [EvGetChatMember (-1001) Me;
                  EvGetChatMember (-1001) (UserRef 7);
                  EvFunc ban_message];
        active_gemini_requests := ∅ |}).
Proof.
  assert (Hlacks :
    ({[ "can_delete_messages" := true ]} : gmap string bool) !! "ban_members"
    <> Some true) by (vm_compute; discriminate).
  assert (Hholds :
    ({[ "ban_members" := true ]} : gmap string bool) !! "ban_members"
    = Some true) by (vm_compute; reflexivity).
  split; [| split].
  - erewrite (proj2 (proj1 (proj2
                (require_permission_direct (collaborators admin_without_ban)
                   "ban_members" (invoke body_ok) ban_message start
                   _ tt alice _ tt eq_refl eq_refl eq_refl eq_refl eq_refl))
                eq_refl)
                (or_intror (ex_intro _ _ (conj eq_refl Hlacks)))
                _ tt eq_refl).
    reflexivity.
  - erewrite (proj1 (proj1 (proj2
                (require_permission_direct (collaborators admin_with_ban)
                   "ban_members" (invoke body_ok) ban_message start
                   _ tt alice _ tt eq_refl eq_refl eq_refl eq_refl eq_refl))
                eq_refl)
                _ eq_refl Hholds None _ eq_refl).
    reflexivity.
  - erewrite (proj1 (require_permission_direct (collaborators healthy)
                       "ban_members" (invoke body_ok) ban_message start
                       _ tt alice _ tt eq_refl eq_refl eq_refl eq_refl eq_refl)
                    eq_refl None _ eq_refl).
    reflexivity.
Defined.

(** C7 as stated fails for [UserAdminInvalid]: alice owns the group and
    heads the administrator list, but the list is never fetched and the
    body is never run. *)
Lemma require_permission_no_fallback_on_invalid :
  require_permission
    (collaborators (lookup_fails (UserAdminInvalid "USER_ADMIN_INVALID")))
    "ban_members" (invoke body_ok) ban_message start
  = (Return None,
     {| world := tt;
        trace := [EvGetChatMember (-1001) Me;
                  EvGetChatMember (-1001) (UserRef 7);
                  EvReply ban_message user_unverified];
        active_gemini_requests := ∅ |}).
Proof. reflexivity. Qed.

(** C7 as amended, at work: after another failure of the direct lookup
    the list is fetched, alice is found as owner, and the body runs. *)
Lemma require_permission_fallback_witness :
  require_permission
    (collaborators (lookup_fails (OtherException "FLOOD_WAIT")))
    "ban_members" (invoke body_ok) ban_message start
  = (Return None,
     {| world := tt;
        trace := [EvGetChatMember (-1001) Me;
                  EvGetChatMember (-1001) (UserRef 7);
                  EvGetChatAdministrators (-1001);
                  EvFunc ban_message];
        active_gemini_requests := ∅ |}).
Proof.
  assert (Hkind : forall m, OtherException "FLOOD_WAIT" <> UserAdminInvalid m)
    by (intros m; discriminate).
  erewrite (proj1 (proj1 (proj2
              (require_permission_fallback
                 (collaborators (lookup_fails (OtherException "FLOOD_WAIT")))
                 "ban_members" (invoke body_ok) ban_message start
                 _ tt alice _ tt eq_refl eq_refl eq_refl eq_refl eq_refl)
              Hkind) _ tt eq_refl)
              _ eq_refl (or_introl eq_refl) None _ eq_refl).
  reflexivity.
Defined.


End GateRuns.

(** ** Slices *)

Lemma substring_empty n m : substring n m "" = "".
Proof. by destruct n, m. Qed.

Lemma length_substring n m s :
  String.length (substring n m s) = Nat.min m (String.length s - n).
Proof.
  revert n m. induction s as [| c s IH]; intros n m.
  - rewrite substring_empty. simpl. lia.
  - destruct n as [| n]; [destruct m as [| m] |]; simpl; rewrite ?IH; lia.
Qed.

Lemma substring_append n m k s :
  substring n m s +:+ substring (n + m) k s = substring n (m + k) s.
Proof.
  revert n m. induction s as [| c s IH]; intros n m.
  - by rewrite !substring_empty.
  - destruct n as [| n]; [destruct m as [| m] |]; simpl.
    + done.
    + by rewrite <- (IH 0%nat m).
    + apply IH.
Qed.

Lemma substring_whole m s :
  (String.length s <= m)%nat -> substring 0 m s = s.
Proof.
  revert m. induction s as [| c s IH]; intros m Hm.
  - apply substring_empty.
  - destruct m as [| m]; simpl in *; [lia |]. f_equal. apply IH. lia.
Qed.

Lemma len_slice s i j :
  0 <= i <= j -> Py.len (Py.slice s i j) = Z.min (j - i) (Z.max 0 (Py.len s - i)).
Proof.
  intros Hij. unfold Py.len, Py.slice. rewrite length_substring. lia.
Qed.

Lemma slice_append s i j k :
  0 <= i <= j -> j <= k ->
  Py.slice s i j +:+ Py.slice s j k = Py.slice s i k.
Proof.
  intros Hij Hjk. unfold Py.slice.
  replace (Z.to_nat j) with (Z.to_nat i + Z.to_nat (j - i))%nat by lia.
  rewrite substring_append. f_equal. lia.
Qed.

Lemma slice_whole s k : Py.len s <= k -> Py.slice s 0 k = s.
Proof.
  intros Hk. unfold Py.slice. apply substring_whole.
  unfold Py.len in Hk. lia.
Qed.

(** ** The Gemini relay handler *)

Lemma bind_run {W A B} (m : M W A) (k : A -> M W B) st a st1 :
  m st = (Return a, st1) -> (m ≫= k) st = k a st1.
Proof. intros Hm. unfold mbind, M_bind, bind. by rewrite Hm. Qed.

Lemma bind_run_raise {W A B} (m : M W A) (k : A -> M W B) st e st1 :
  m st = (Raise e, st1) -> (m ≫= k) st = (Raise e, st1).
Proof. intros Hm. unfold mbind, M_bind, bind. by rewrite Hm. Qed.

Section GeminiFacts.
Context {W : Type} (env : Collaborators W) (cfg : Config).

(** The single-flight guard: while the chat is in the set, an invocation
    is the wait notice and nothing else. *)
Lemma gemini_command_busy msg (st : state W) :
  chat_id (chat msg) ∈ active_gemini_requests st ->
  gemini_command env cfg msg st
  = (message_reply env msg wait_for_previous;; mret tt) st.
Proof.
  intros Hbusy. unfold gemini_command, get_active.
  unfold mbind at 1. unfold M_bind at 1. unfold bind at 1.
  by rewrite bool_decide_eq_true_2.
Qed.

(** [save_usage] raises: the run ends there, with the chat in the set. *)
Lemma gemini_command_usage_failure msg (st : state W) e w1 :
  chat_id (chat msg) ∉ active_gemini_requests st ->
  save_usage env (chat msg) "gemini" (world st) = (Raise e, w1) ->
  gemini_command env cfg msg st
  = (Raise e,
     {| world := w1;
        trace := trace st ++ [EvSaveUsage (chat msg) "gemini"];
        active_gemini_requests :=
          {[chat_id (chat msg)]} ∪ active_gemini_requests st |}).
Proof.
  intros Hfree Husage.
  unfold gemini_command, active_add, active_discard, get_active, set_active.
  unfold_M.
  rewrite bool_decide_eq_false_2 by done. sim. by answer_with Husage.
Qed.

Lemma only_discards_ret {A} cid (a : A) : only_discards cid (mret a : M W A).
Proof. intros st. by left. Qed.

Lemma only_discards_raise {A} cid e : only_discards cid (raise e : M W A).
Proof. intros st. by left. Qed.

Lemma only_discards_call {A} cid ev (op : W -> outcome A * W) :
  only_discards cid (call ev op).
Proof. intros st. unfold call. destruct (op (world st)). by left. Qed.

Lemma only_discards_active_discard cid :
  only_discards cid (active_discard cid : M W unit).
Proof. intros st. by right. Qed.

Lemma only_discards_chain cid (s0 s1 s2 : gset Z) :
  s1 = s0 \/ s1 = s0 ∖ {[cid]} ->
  s2 = s1 \/ s2 = s1 ∖ {[cid]} ->
  s2 = s0 \/ s2 = s0 ∖ {[cid]}.
Proof.
  intros H1 H2. destruct H1 as [H1 | H1], H2 as [H2 | H2]; subst; auto.
  right. apply difference_twice_L.
Qed.

Lemma only_discards_bind {A B} cid (m : M W A) (k : A -> M W B) :
  only_discards cid m -> (forall a, only_discards cid (k a)) ->
  only_discards cid (m ≫= k).
Proof.
  intros Hm Hk st. unfold mbind, M_bind, bind.
  specialize (Hm st). destruct (m st) as [[a | e] st1]; [| done].
  eapply only_discards_chain; [exact Hm | apply Hk].
Qed.

Lemma only_discards_try_except {A} cid (body : M W A) handler :
  only_discards cid body -> (forall e, only_discards cid (handler e)) ->
  only_discards cid (try_except body handler).
Proof.
  intros Hb Hh st. unfold try_except.
  specialize (Hb st). destruct (body st) as [[a | e] st1]; [done |].
  eapply only_discards_chain; [exact Hb | apply Hh].
Qed.

Lemma only_discards_reply_then {A} cid msg body (k : M W A) :
  only_discards cid k ->
  only_discards cid (message_reply env msg body;; k).
Proof. intros Hk. apply only_discards_bind; [apply only_discards_call | done]. Qed.

Lemma only_discards_send_parts cid msg parts :
  only_discards cid (send_parts env cfg msg parts).
Proof.
  induction parts as [| part rest IH]; [apply only_discards_ret |].
  cbn [send_parts]. apply only_discards_reply_then.
  apply only_discards_bind; [apply only_discards_call | done].
Qed.

(** Past [save_usage] the guard is released on every way out: on
    success, on the empty prompt, and on any exception, also one raised
    by the reply of the [except] clause. *)
Lemma gemini_command_releases msg (st : state W) u w1 :
  chat_id (chat msg) ∉ active_gemini_requests st ->
  save_usage env (chat msg) "gemini" (world st) = (Return u, w1) ->
  active_gemini_requests (snd (gemini_command env cfg msg st))
  = active_gemini_requests st.
Proof.
  intros Hfree Husage.
  pose (cid := chat_id (chat msg)).
  assert (Hbody : only_discards cid
    (try_except
       (prompt ← prompt_of cfg msg;
        if String.eqb prompt ""
        then
          message_reply env msg write_your_prompt;;
          active_discard cid;;
          mret tt
        else
          waiting_msg ← message_reply env msg wait_a_moment;
          response ← call (EvGenerate (GEMINI_MODEL cfg) prompt)
                          (generate_content env (GEMINI_MODEL cfg) prompt);
          response_text ← checked_len response;
          (if Py.len response_text >? limit
           then send_parts env cfg msg (parts_of response_text)
           else message_reply env msg (answer cfg response_text);; mret tt);;
          call (EvDelete waiting_msg) (delete env waiting_msg))
       (fun e => message_reply env msg (sorry e);; mret tt))).
  { apply only_discards_try_except.
    - apply only_discards_bind.
      { unfold prompt_of. destruct (text msg);
          [apply only_discards_ret | apply only_discards_raise]. }
      intros prompt. destruct (String.eqb prompt "").
      + apply only_discards_reply_then, only_discards_bind;
          [apply only_discards_active_discard | intros; apply only_discards_ret].
      + apply only_discards_bind; [apply only_discards_call |]. intros waiting.
        apply only_discards_bind; [apply only_discards_call |]. intros response.
        apply only_discards_bind.
        { destruct response;
            [apply only_discards_ret | apply only_discards_raise]. }
        intros response_text. apply only_discards_bind.
        * destruct (Py.len response_text >? limit);
            [apply only_discards_send_parts
            | apply only_discards_reply_then, only_discards_ret].
        * intros _. apply only_discards_call.
    - intros e. apply only_discards_reply_then, only_discards_ret. }
  unfold gemini_command.
  erewrite bind_run; [| reflexivity].
  rewrite bool_decide_eq_false_2 by done.
  erewrite bind_run; [| reflexivity].
  erewrite bind_run; [| unfold call; sim; by rewrite Husage].
  fold cid. unfold try_finally.
  match goal with
  | |- context [try_except ?b ?h ?s] =>
      specialize (Hbody s); destruct (try_except b h s) as [r st']
  end.
  unfold active_discard, get_active, set_active. unfold_M. sim.
  cbn [snd active_gemini_requests] in Hbody.
  assert (Hin : ({[cid]} ∪ active_gemini_requests st) ∖ {[cid]}
                = active_gemini_requests st).
  { apply set_eq. intros x.
    rewrite elem_of_difference, elem_of_union, !elem_of_singleton.
    split; [tauto |]. intros Hx. split; [by right | by intros ->]. }
  destruct Hbody as [-> | ->]; [done | by rewrite difference_twice_L].
Qed.

(** C1, the failing case.  [save_usage] is awaited after the chat has
    been added to the set and before the [try] is entered: when it
    raises, no [finally] runs, the exception leaves the handler and the
    chat stays in the set. *)
Theorem gemini_command_usage_failure_keeps_guard msg (st : state W) e w1
    (Hfree : chat_id (chat msg) ∉ active_gemini_requests st)
    (Husage : save_usage env (chat msg) "gemini" (world st) = (Raise e, w1)) :
  fst (gemini_command env cfg msg st) = Raise e /\
  chat_id (chat msg)
    ∈ active_gemini_requests (snd (gemini_command env cfg msg st)).
Proof.
  rewrite (gemini_command_usage_failure msg st e w1) by done.
  split; [done |]. sim. set_solver.
Qed.

(** C2, the failing case.  After an invocation that failed in
    [save_usage], every further invocation for the same chat is turned
    away with the wait notice: the chat is locked out. *)
Theorem gemini_command_locked_after_usage_failure msg msg' (st : state W) e w1
    (Hfree : chat_id (chat msg) ∉ active_gemini_requests st)
    (Husage : save_usage env (chat msg) "gemini" (world st) = (Raise e, w1))
    (Hsame : chat_id (chat msg') = chat_id (chat msg)) :
  let st1 := snd (gemini_command env cfg msg st) in
  fst (gemini_command env cfg msg st) = Raise e /\
  gemini_command env cfg msg' st1
  = (message_reply env msg' wait_for_previous;; mret tt) st1.
Proof.
  intros st1. subst st1.
  rewrite (gemini_command_usage_failure msg st e w1) by done.
  split; [done |].
  apply gemini_command_busy. sim. rewrite Hsame. set_solver.
Qed.

(** C5.  A request that is accepted, carries a prompt and gets a
    response text from the backend, with replies and the deletion
    delivered.  After the interim reply and the backend call:
    - a text shorter than 4000 is sent as exactly one reply, whose body
      is the title-cased model name between asterisks followed by the
      text;
    - a text of length 8001 is sent as exactly three replies, whose
      bodies are that label followed by [text[0:4000]], by
      [text[4000:8000]] and by [text[8000:12000]], in this order; these
      segments have lengths 4000, 4000 and 1 and together are the text. *)
Theorem gemini_command_replies msg (st : state W) u w1 t waiting w2
    response_text w3
    (Hfree : chat_id (chat msg) ∉ active_gemini_requests st)
    (Husage : save_usage env (chat msg) "gemini" (world st) = (Return u, w1))
    (Htext : text msg = Some t)
    (Hprompt : Py.strip (Py.replace (Py.replace t "/gemini" "")
                           ("@" +:+ BOT_USERNAME cfg) "") <> "")
    (Hwait : reply env msg wait_a_moment w1 = (Return waiting, w2))
    (Hgen : generate_content env (GEMINI_MODEL cfg)
              (Py.strip (Py.replace (Py.replace t "/gemini" "")
                           ("@" +:+ BOT_USERNAME cfg) "")) w2
            = (Return (Some response_text), w3))
    (Hreplies : replies_delivered env)
    (Hdeletions : deletions_delivered env) :
  let prompt := Py.strip (Py.replace (Py.replace t "/gemini" "")
                            ("@" +:+ BOT_USERNAME cfg) "") in
  let before := (trace st ++ [EvSaveUsage (chat msg) "gemini";
                              EvReply msg wait_a_moment;
                              EvGenerate (GEMINI_MODEL cfg) prompt])%list in
  (Py.len response_text < 4000 ->
   exists st',
     gemini_command env cfg msg st = (Return tt, st') /\
     trace st' = (before ++
       [EvReply msg ("**" +:+ Py.title (GEMINI_MODEL cfg) +:+ ":** " +:+
                     response_text);
        EvDelete waiting])%list) /\
  (Py.len response_text = 8001 ->
   let p1 := Py.slice response_text 0 4000 in
   let p2 := Py.slice response_text 4000 8000 in
   let p3 := Py.slice response_text 8000 12000 in
   Py.len p1 = 4000 /\ Py.len p2 = 4000 /\ Py.len p3 = 1 /\
   p1 +:+ p2 +:+ p3 = response_text /\
   exists st',
     gemini_command env cfg msg st = (Return tt, st') /\
     trace st' = (before ++
       [EvReply msg ("**" +:+ Py.title (GEMINI_MODEL cfg) +:+ ":** " +:+ p1);
        EvSleep;
        EvReply msg ("**" +:+ Py.title (GEMINI_MODEL cfg) +:+ ":** " +:+ p2);
        EvSleep;
        EvReply msg ("**" +:+ Py.title (GEMINI_MODEL cfg) +:+ ":** " +:+ p3);
        EvSleep;
        EvDelete waiting])%list).
Proof.
  intros prompt before. subst before.
  assert (Hnonempty : String.eqb prompt "" = false) by by apply String.eqb_neq.
  subst prompt.
  split.
  - intros Hshort.
    destruct (Hreplies msg (answer cfg response_text) w3) as (sent & w4 & Hsent).
    destruct (Hdeletions waiting w4) as (w5 & Hdel).
    unfold gemini_command, prompt_of, checked_len, message_reply,
           active_add, active_discard, get_active, set_active.
    unfold_M.
    rewrite bool_decide_eq_false_2 by done. sim. answer_with Husage.
    rewrite Htext, Hnonempty. sim.
    answer_with Hwait. answer_with Hgen.
    replace (Py.len response_text >? limit) with false
      by (rewrite Z.gtb_ltb; symmetry; apply Z.ltb_ge; unfold limit; lia).
    sim. answer_with Hsent. answer_with Hdel.
    eexists. split; [reflexivity |]. sim.
    by rewrite <- !app_assoc.
  - intros Hlong p1 p2 p3.
    split; [| split; [| split; [| split]]].
    + unfold p1. rewrite len_slice; lia.
    + unfold p2. rewrite len_slice; lia.
    + unfold p3. rewrite len_slice; lia.
    + unfold p1, p2, p3. rewrite !slice_append by lia.
      apply slice_whole. lia.
    + destruct (Hreplies msg (answer cfg p1) w3) as (s1 & w4 & Hs1).
      destruct (Hreplies msg (answer cfg p2) w4) as (s2 & w5 & Hs2).
      destruct (Hreplies msg (answer cfg p3) w5) as (s3 & w6 & Hs3).
      destruct (Hdeletions waiting w6) as (w7 & Hdel).
      assert (Hparts : parts_of response_text = [p1; p2; p3]).
      { unfold parts_of. rewrite Hlong.
        replace (Py.range 0 8001 limit) with [0; 4000; 8000]
          by (vm_compute; reflexivity).
        reflexivity. }
      unfold gemini_command, prompt_of, checked_len, message_reply,
             active_add, active_discard, get_active, set_active.
      unfold_M.
      rewrite bool_decide_eq_false_2 by done. sim. answer_with Husage.
      rewrite Htext, Hnonempty. sim.
      answer_with Hwait. answer_with Hgen.
      replace (Py.len response_text >? limit) with true
        by (rewrite Hlong; reflexivity).
      rewrite Hparts. cbn [send_parts].
      unfold message_reply, sleep. unfold_M.
      sim. answer_with Hs1. answer_with Hs2. answer_with Hs3.
      answer_with Hdel.
      eexists. split; [reflexivity |]. sim.
      by rewrite <- !app_assoc.
Qed.

End GeminiFacts.

(** ** The relay handler at work *)

Section GeminiRuns.
Import Scenario.

(** C1 at work: the usage log fails, the handler raises, and the group
    stays in the set. *)
Lemma gemini_command_usage_failure_keeps_guard_witness :
  fst (gemini_command (collaborators usage_fails) config gemini_message start)
    = Raise (OtherException "disk full") /\
  -1001 ∈ active_gemini_requests
            (snd (gemini_command (collaborators usage_fails) config
                    gemini_message start)).
Proof.
  apply (gemini_command_usage_failure_keeps_guard
           (collaborators usage_fails) config gemini_message start
           (OtherException "disk full") tt).
  - apply not_elem_of_empty.
  - reflexivity.
Defined.

(** C2 at work: after that failure bob's request in the same group is
    answered with the wait notice; the backend is not called. *)
Lemma gemini_command_locked_after_usage_failure_witness :
  fst (gemini_command (collaborators usage_fails) config gemini_message start)
    = Raise (OtherException "disk full") /\
  gemini_command (collaborators usage_fails) config next_gemini_message
    (snd (gemini_command (collaborators usage_fails) config
            gemini_message start))
  = (Return tt,
     {| world := tt;
        trace := [EvSaveUsage group "gemini";
                  EvReply next_gemini_message wait_for_previous];
        active_gemini_requests := {[ -1001 ]} ∪ ∅ |}).
Proof.
  destruct (gemini_command_locked_after_usage_failure
              (collaborators usage_fails) config gemini_message
              next_gemini_message start (OtherException "disk full") tt
              (not_elem_of_empty _) eq_refl eq_refl) as [Hfirst Hsecond].
  split; [exact Hfirst |]. rewrite Hsecond. reflexivity.
Defined.

(** C5 at work: "Paris." goes out as one reply; a text of 8001
    characters goes out as three. *)
Lemma gemini_command_replies_witness :
  (exists st',
     gemini_command (collaborators healthy) config gemini_message start
       = (Return tt, st') /\
     trace st'
       = [EvSaveUsage group "gemini";
          EvReply gemini_message wait_a_moment;
          EvGenerate "gemini-2.5-flash" "what is the capital of France?";
          EvReply gemini_message "**Gemini-2.5-Flash:** Paris.";
          EvDelete (sent gemini_message wait_a_moment)]) /\
  (exists st',
     gemini_command (collaborators long_answer) config gemini_message start
       = (Return tt, st') /\
     trace st'
       = [EvSaveUsage group "gemini";
          EvReply gemini_message wait_a_moment;
          EvGenerate "gemini-2.5-flash" "what is the capital of France?";
          EvReply gemini_message
            ("**Gemini-2.5-Flash:** " +:+ Py.slice long_text 0 4000);
          EvSleep;
          EvReply gemini_message
            ("**Gemini-2.5-Flash:** " +:+ Py.slice long_text 4000 8000);
          EvSleep;
          EvReply gemini_message
            ("**Gemini-2.5-Flash:** " +:+ Py.slice long_text 8000 12000);
          EvSleep;
          EvDelete (sent gemini_message wait_a_moment)]).
Proof.
  assert (Hdel : forall s, deletions_delivered (collaborators s))
    by (intros s m w; by exists w).
  assert (Hprompt :
    Py.strip (Py.replace (Py.replace "/gemini what is the capital of France?"
                            "/gemini" "")
                ("@" +:+ BOT_USERNAME config) "") <> "")
    by (vm_compute; discriminate).
  split.
  - destruct (proj1 (gemini_command_replies
                       (collaborators healthy) config gemini_message start
                       tt tt _ (sent gemini_message wait_a_moment) tt
                       "Paris." tt
                       (not_elem_of_empty _) eq_refl eq_refl Hprompt eq_refl
                       eq_refl (scenario_replies_delivered healthy)
                       (Hdel healthy)))
      as (st' & Hrun & Htrace).
    { vm_compute. reflexivity. }
    exists st'. split; [exact Hrun |]. rewrite Htrace. reflexivity.
  - destruct (proj2 (gemini_command_replies
                       (collaborators long_answer) config gemini_message start
                       tt tt _ (sent gemini_message wait_a_moment) tt
                       long_text tt
                       (not_elem_of_empty _) eq_refl eq_refl Hprompt eq_refl
                       eq_refl (scenario_replies_delivered long_answer)
                       (Hdel long_answer)))
      as (_ & _ & _ & _ & st' & Hrun & Htrace).
    { vm_compute. reflexivity. }
    exists st'. split; [exact Hrun |]. rewrite Htrace. reflexivity.
Defined.

End GeminiRuns.

(** * Further properties *)

(** ** The permission resolver, case by case *)

Section ResolverCases.
Context {W : Type} (env : Collaborators W).

(** X1. In a private chat the resolver answers [True] after the one
    [get_chat] call: no membership is looked up, for any user. *)
Theorem check_admin_permissions_private cid uid (st : state W) ch w1
    (Hchat : get_chat env cid (world st) = (Return ch, w1))
    (Hprivate : is_private ch = true) :
  check_admin_permissions env cid uid st
  = (Return true, step st (EvGetChat cid) w1).
Proof.
  unfold check_admin_permissions. unfold_M.
  answer_with Hchat. by rewrite Hprivate.
Qed.

(** X2. In a non-private chat where the bot's own status is delivered
    and is neither owner nor administrator, the resolver answers [False]
    for every user, without looking the user up and without fetching the
    administrator list. *)
Theorem check_admin_permissions_bot_not_admin cid uid (st : state W)
    ch w1 bot w2
    (Hchat : get_chat env cid (world st) = (Return ch, w1))
    (Hgroup : is_private ch = false)
    (Hbot : get_chat_member env cid Me w1 = (Return bot, w2))
    (Hbot_no : owner_or_administrator (status bot) = false) :
  check_admin_permissions env cid uid st
  = (Return false,
     step (step st (EvGetChat cid) w1) (EvGetChatMember cid Me) w2).
Proof.
  unfold check_admin_permissions. unfold_M.
  answer_with Hchat. answer_with Hgroup. answer_with Hbot.
  by rewrite Hbot_no.
Qed.

(** X3. When the direct lookup of the user fails with
    [UserAdminInvalid], the resolver answers [False] at once: the
    administrator list is not fetched, whoever is on it. *)
Theorem check_admin_permissions_user_admin_invalid cid uid (st : state W)
    ch w1 rb w2 m w3
    (Hchat : get_chat env cid (world st) = (Return ch, w1))
    (Hgroup : is_private ch = false)
    (Hbot : get_chat_member env cid Me w1 = (rb, w2))
    (Hbot_ok : forall bot, rb = Return bot ->
                 owner_or_administrator (status bot) = true)
    (Hmember : get_chat_member env cid (UserRef uid) w2
                 = (Raise (UserAdminInvalid m), w3)) :
  check_admin_permissions env cid uid st
  = (Return false,
     step (step (step st (EvGetChat cid) w1) (EvGetChatMember cid Me) w2)
          (EvGetChatMember cid (UserRef uid)) w3).
Proof.
  unfold check_admin_permissions. unfold_M.
  answer_with Hchat. answer_with Hgroup. answer_with Hbot.
  destruct rb as [bot | eb]; rewrite ?(Hbot_ok _ eq_refl); sim;
    by answer_with Hmember.
Qed.

(** X4. Whatever the collaborators answer, the resolver only looks up:
    the calls it makes are lookups on the platform, at most four of them,
    it sends no reply, runs no command body, and leaves
    [active_gemini_requests] as it was. *)
Theorem check_admin_permissions_only_looks_up cid uid (st : state W) :
  exists evs,
    trace (snd (check_admin_permissions env cid uid st)) = (trace st ++ evs)%list /\
    forallb is_lookup evs = true /\
    (length evs <= 4)%nat /\
    active_gemini_requests (snd (check_admin_permissions env cid uid st))
      = active_gemini_requests st.
Proof.
  unfold check_admin_permissions. unfold_M.
  repeat case_match; simplify_eq; sim;
    rewrite <- ?app_assoc;
    (eexists; split; [reflexivity | split; [reflexivity | split; [simpl; lia | reflexivity]]]).
Qed.

End ResolverCases.

(** ** The command gates, case by case *)

Section GateCases.
Context {W R : Type} (env : Collaborators W).

Implicit Types func : @handler W R.

(** X5. [admin_only], once its bot check has passed (or was skipped in a
    private chat), follows the resolver: on [False] the sender gets the
    administrators-only message and the body is not run; on [True] the
    wrapper returns what the body returns. *)
Theorem admin_only_follows_resolver func msg (st st2 st3 : state W)
    ch w1 u is_admin
    (Hchat : get_chat env (chat_id (chat msg)) (world st) = (Return ch, w1))
    (Hbot :
       (is_private ch = true /\ st2 = step st (EvGetChat (chat_id (chat msg))) w1) \/
       (is_private ch = false /\
        exists bot w2,
          get_chat_member env (chat_id (chat msg)) Me w1 = (Return bot, w2) /\
          owner_or_administrator (status bot) = true /\
          st2 = step (step st (EvGetChat (chat_id (chat msg))) w1)
                     (EvGetChatMember (chat_id (chat msg)) Me) w2))
    (Huser : from_user msg = Some u)
    (Hadmin : check_admin_permissions env (chat_id (chat msg)) (user_id u) st2
                = (Return is_admin, st3)) :
  (is_admin = false ->
   forall sent w4,
     reply env msg admins_only (world st3) = (Return sent, w4) ->
     admin_only env func msg st
       = (Return None, step st3 (EvReply msg admins_only) w4)) /\
  (is_admin = true ->
   forall r st4,
     func msg st3 = (Return r, st4) ->
     admin_only env func msg st = (Return r, st4)).
Proof.
  assert (Hrun : admin_only env func msg st
    = try_except
        (if negb is_admin
         then message_reply env msg admins_only;; mret None
         else func msg)
        (fun _ => message_reply env msg unexpected_error;; mret None) st3).
  { unfold admin_only, from_user_id. unfold_M.
    answer_with Hchat. rewrite Huser.
    destruct Hbot as [[Hpriv ->] | (Hgroup & bot & w2 & Hbot & Hok & ->)].
    - answer_with Hpriv. by answer_with Hadmin.
    - answer_with Hgroup. answer_with Hbot. answer_with Hok.
      by answer_with Hadmin. }
  rewrite Hrun. unfold message_reply. unfold_M. split.
  - intros -> sent w4 Hreply. sim. by answer_with Hreply.
  - intros -> r st4 Hfunc. sim. by rewrite Hfunc.
Qed.

(** X6. [admin_only] in a non-private chat stops at the bot's own status:
    a bot that is neither owner nor administrator is reported with the
    needs-administrator message, a failed lookup of the bot with the
    cannot-verify message; the sender is never looked up and the body is
    not run. *)
Theorem admin_only_bot_gate func msg (st : state W) ch w1 rb w2
    (Hchat : get_chat env (chat_id (chat msg)) (world st) = (Return ch, w1))
    (Hgroup : is_private ch = false)
    (Hbot : get_chat_member env (chat_id (chat msg)) Me w1 = (rb, w2)) :
  let st2 := step (step st (EvGetChat (chat_id (chat msg))) w1)
                  (EvGetChatMember (chat_id (chat msg)) Me) w2 in
  (forall bot,
     rb = Return bot ->
     owner_or_administrator (status bot) = false ->
     forall sent w3,
       reply env msg bot_needs_admin w2 = (Return sent, w3) ->
       admin_only env func msg st
         = (Return None, step st2 (EvReply msg bot_needs_admin) w3)) /\
  (forall e,
     rb = Raise e ->
     forall sent w3,
       reply env msg bot_unverified w2 = (Return sent, w3) ->
       admin_only env func msg st
         = (Return None, step st2 (EvReply msg bot_unverified) w3)).
Proof.
  intros st2. subst st2.
  unfold admin_only, message_reply. unfold_M.
  answer_with Hchat. answer_with Hgroup. answer_with Hbot. split.
  - intros bot -> Hno sent w3 Hreply. rewrite Hno. sim.
    by answer_with Hreply.
  - intros e -> sent w3 Hreply. sim. by answer_with Hreply.
Qed.

(** X7. [require_permission] in a non-private chat stops at the bot's own
    status in the same way, before the sender is looked up. *)
Theorem require_permission_bot_gate permission func msg (st : state W) rb w1
    (Hgroup : is_private (chat msg) = false)
    (Hbot : get_chat_member env (chat_id (chat msg)) Me (world st) = (rb, w1)) :
  let st1 := step st (EvGetChatMember (chat_id (chat msg)) Me) w1 in
  (forall bot,
     rb = Return bot ->
     owner_or_administrator (status bot) = false ->
     forall sent w2,
       reply env msg bot_needs_admin w1 = (Return sent, w2) ->
       require_permission env permission func msg st
         = (Return None, step st1 (EvReply msg bot_needs_admin) w2)) /\
  (forall e,
     rb = Raise e ->
     forall sent w2,
       reply env msg bot_unverified w1 = (Return sent, w2) ->
       require_permission env permission func msg st
         = (Return None, step st1 (EvReply msg bot_unverified) w2)).
Proof.
  intros st1. subst st1.
  unfold require_permission, message_reply. rewrite Hgroup. unfold_M.
  answer_with Hbot. split.
  - intros bot -> Hno sent w2 Hreply. rewrite Hno. sim.
    by answer_with Hreply.
  - intros e -> sent w2 Hreply. sim. by answer_with Hreply.
Qed.

(** X8. In a private chat every gate hands the message to the body:
    [require_permission] decides on the chat carried by the message and
    makes no call at all; [protect_admins] asks [get_chat] once and does
    not extract a target; [admin_only] skips the bot's status, and the
    resolver, finding the chat private as well, lets any sender through
    without a membership lookup. *)
Theorem private_chat_passthrough func msg (st : state W) :
  (forall permission,
     is_private (chat msg) = true ->
     require_permission env permission func msg st = func msg st) /\
  (forall ch w1,
     get_chat env (chat_id (chat msg)) (world st) = (Return ch, w1) ->
     is_private ch = true ->
     protect_admins env func msg st
       = func msg (step st (EvGetChat (chat_id (chat msg))) w1)) /\
  (forall ch w1 u ch' w2 r st',
     get_chat env (chat_id (chat msg)) (world st) = (Return ch, w1) ->
     is_private ch = true ->
     from_user msg = Some u ->
     get_chat env (chat_id (chat msg)) w1 = (Return ch', w2) ->
     is_private ch' = true ->
     func msg (step (step st (EvGetChat (chat_id (chat msg))) w1)
                    (EvGetChat (chat_id (chat msg))) w2) = (Return r, st') ->
     admin_only env func msg st = (Return r, st')).
Proof.
  split; [| split].
  - intros permission Hpriv. unfold require_permission. by rewrite Hpriv.
  - intros ch w1 Hchat Hpriv. unfold protect_admins. unfold_M.
    answer_with Hchat. by rewrite Hpriv.
  - intros ch w1 u ch' w2 r st' Hchat Hpriv Huser Hchat' Hpriv' Hfunc.
    unfold admin_only, from_user_id, check_admin_permissions. unfold_M.
    answer_with Hchat. answer_with Hpriv. rewrite Huser. sim.
    answer_with Hchat'. answer_with Hpriv'. by rewrite Hfunc.
Qed.

(** X9. [protect_admins] protects only as far as the resolver can see.
    For a target other than the sender, when the resolver answers
    [False] because the bot itself is neither owner nor administrator,
    or because its [get_chat] fails, the wrapper is one run of the body,
    whatever the target's status in the chat is: that status is never
    looked up. *)
Theorem protect_admins_open_when_resolver_blind func msg (st : state W)
    ch w1 t reason w2 u
    (Hchat : get_chat env (chat_id (chat msg)) (world st) = (Return ch, w1))
    (Hgroup : is_private ch = false)
    (Hextract : extract_user_and_reason env msg w1
                  = (Return (Some t, reason), w2))
    (Huser : from_user msg = Some u)
    (Hother : user_id t <> user_id u) :
  let st2 := step (step st (EvGetChat (chat_id (chat msg))) w1)
                  (EvExtract msg) w2 in
  (forall ch2 w3 bot w4,
     get_chat env (chat_id (chat msg)) w2 = (Return ch2, w3) ->
     is_private ch2 = false ->
     get_chat_member env (chat_id (chat msg)) Me w3 = (Return bot, w4) ->
     owner_or_administrator (status bot) = false ->
     protect_admins env func msg st
       = func msg (step (step st2 (EvGetChat (chat_id (chat msg))) w3)
                        (EvGetChatMember (chat_id (chat msg)) Me) w4)) /\
  (forall e w3,
     get_chat env (chat_id (chat msg)) w2 = (Raise e, w3) ->
     protect_admins env func msg st
       = func msg (step st2 (EvGetChat (chat_id (chat msg))) w3)).
Proof.
  intros st2. subst st2.
  unfold protect_admins, from_user_id, check_admin_permissions. unfold_M.
  answer_with Hchat. answer_with Hgroup. answer_with Hextract.
  rewrite Huser. sim. rewrite (proj2 (Z.eqb_neq _ _) Hother). sim.
  split.
  - intros ch2 w3 bot w4 Hchat2 Hgroup2 Hbot Hno.
    answer_with Hchat2. answer_with Hgroup2. answer_with Hbot.
    rewrite Hno. reflexivity.
  - intros e w3 Hchat2. by answer_with Hchat2.
Qed.

(** X10. In [require_permission] the call of the body on the direct path
    is inside the [try] whose [except Exception] clause holds the
    fallback.  So when the sender passes the direct check and the body
    raises (anything but [UserAdminInvalid]), the administrator list is
    fetched, and if the sender passes there too the body is run a second
    time: its result is returned, and if it raises again the sender gets
    the generic permission-check error. *)
Theorem require_permission_reruns_body permission func msg (st st3 : state W)
    bot w1 u member w2 e admins w4 admin
    (Hgroup : is_private (chat msg) = false)
    (Hbot : get_chat_member env (chat_id (chat msg)) Me (world st)
              = (Return bot, w1))
    (Hbot_ok : owner_or_administrator (status bot) = true)
    (Huser : from_user msg = Some u)
    (Hmember : get_chat_member env (chat_id (chat msg)) (UserRef (user_id u)) w1
                 = (Return member, w2))
    (Hpass : status member = OWNER \/
             (status member = ADMINISTRATOR /\
              has_privilege member permission = true))
    (Hbody : func msg (step (step st (EvGetChatMember (chat_id (chat msg)) Me) w1)
                            (EvGetChatMember (chat_id (chat msg))
                               (UserRef (user_id u))) w2)
               = (Raise e, st3))
    (Hkind : forall m, e <> UserAdminInvalid m)
    (Hadmins : get_chat_administrators env (chat_id (chat msg)) (world st3)
                 = (Return admins, w4))
    (Hfound : find_admin (user_id u) admins = Some admin)
    (Hpass' : status admin = OWNER \/ has_privilege admin permission = true) :
  let st4 := step st3 (EvGetChatAdministrators (chat_id (chat msg))) w4 in
  (forall r st5,
     func msg st4 = (Return r, st5) ->
     require_permission env permission func msg st = (Return r, st5)) /\
  (forall e2 st5 sent w6,
     func msg st4 = (Raise e2, st5) ->
     reply env msg permission_check_error (world st5) = (Return sent, w6) ->
     require_permission env permission func msg st
       = (Return None, step st5 (EvReply msg permission_check_error) w6)).
Proof.
  intros st4. subst st4.
  rewrite (require_permission_past_bot_check env permission func msg st bot w1 u)
    by done.
  unfold message_reply. unfold_M. sim. answer_with Hmember.
  assert (Hdirect : forall (A : Type) (x y z : A),
    (if bool_decide (status member = OWNER) then x
     else if bool_decide (status member = ADMINISTRATOR)
          then if has_privilege member permission then x else y
          else z) = x).
  { intros A x y z. destruct Hpass as [Ho | [Ha Hp]].
    - by rewrite bool_decide_eq_true_2.
    - rewrite Ha, Hp. by rewrite bool_decide_eq_false_2. }
  rewrite Hdirect. clear Hdirect. rewrite Hbody.
  assert (Hother :
    forall (A : Type) (x y : A),
      match e with UserAdminInvalid _ => x | _ => y end = y).
  { intros A x y. destruct e; [by edestruct Hkind | done ..]. }
  rewrite Hother. clear Hother. sim.
  answer_with Hadmins. rewrite Hfound.
  assert (Hlisted : forall (A : Type) (x y : A),
    (if bool_decide (status admin = OWNER) then x
     else if has_privilege admin permission then x else y) = x).
  { intros A x y. destruct Hpass' as [Ho | Hp].
    - by rewrite bool_decide_eq_true_2.
    - rewrite Hp. by case_bool_decide. }
  rewrite Hlisted. clear Hlisted. split.
  - intros r st5 Hfunc. by rewrite Hfunc.
  - intros e2 st5 sent w6 Hfunc Hreply. rewrite Hfunc.
    by answer_with Hreply.
Qed.

(** X11. For the same reason a body that raises [UserAdminInvalid] (as
    a ban or a mute of an administrator does) is answered by the clause
    meant for the lookup: the sender, who has passed the check, is told
    that their permissions could not be verified. *)
Theorem require_permission_body_user_admin_invalid permission func msg
    (st st3 : state W) bot w1 u member w2 m sent w4
    (Hgroup : is_private (chat msg) = false)
    (Hbot : get_chat_member env (chat_id (chat msg)) Me (world st)
              = (Return bot, w1))
    (Hbot_ok : owner_or_administrator (status bot) = true)
    (Huser : from_user msg = Some u)
    (Hmember : get_chat_member env (chat_id (chat msg)) (UserRef (user_id u)) w1
                 = (Return member, w2))
    (Hpass : status member = OWNER \/
             (status member = ADMINISTRATOR /\
              has_privilege member permission = true))
    (Hbody : func msg (step (step st (EvGetChatMember (chat_id (chat msg)) Me) w1)
                            (EvGetChatMember (chat_id (chat msg))
                               (UserRef (user_id u))) w2)
               = (Raise (UserAdminInvalid m), st3))
    (Hreply : reply env msg user_unverified (world st3) = (Return sent, w4)) :
  require_permission env permission func msg st
  = (Return None, step st3 (EvReply msg user_unverified) w4).
Proof.
  rewrite (require_permission_past_bot_check env permission func msg st bot w1 u)
    by done.
  unfold message_reply. unfold_M. sim. answer_with Hmember.
  assert (Hdirect : forall (A : Type) (x y z : A),
    (if bool_decide (status member = OWNER) then x
     else if bool_decide (status member = ADMINISTRATOR)
          then if has_privilege member permission then x else y
          else z) = x).
  { intros A x y z. destruct Hpass as [Ho | [Ha Hp]].
    - by rewrite bool_decide_eq_true_2.
    - rewrite Ha, Hp. by rewrite bool_decide_eq_false_2. }
  rewrite Hdirect. clear Hdirect. rewrite Hbody. sim.
  by answer_with Hreply.
Qed.

(** X12. A message without a sender ([from_user] is [None]) in a
    non-private chat.  [admin_only] reads the sender inside its [try]:
    the [AttributeError] becomes the generic reply, and the resolver is
    not asked.  [require_permission] and [protect_admins] read it outside
    any [try]: the [AttributeError] leaves the wrapper, with no reply. *)
Theorem gates_without_sender func msg (st : state W)
    (Huser : from_user msg = None) :
  (forall ch w1 bot w2 sent w3,
     get_chat env (chat_id (chat msg)) (world st) = (Return ch, w1) ->
     is_private ch = false ->
     get_chat_member env (chat_id (chat msg)) Me w1 = (Return bot, w2) ->
     owner_or_administrator (status bot) = true ->
     reply env msg unexpected_error w2 = (Return sent, w3) ->
     admin_only env func msg st
       = (Return None,
          step (step (step st (EvGetChat (chat_id (chat msg))) w1)
                     (EvGetChatMember (chat_id (chat msg)) Me) w2)
               (EvReply msg unexpected_error) w3)) /\
  (forall permission bot w1,
     is_private (chat msg) = false ->
     get_chat_member env (chat_id (chat msg)) Me (world st) = (Return bot, w1) ->
     owner_or_administrator (status bot) = true ->
     require_permission env permission func msg st
       = (Raise (AttributeError "'NoneType' object has no attribute 'id'"),
          step st (EvGetChatMember (chat_id (chat msg)) Me) w1)) /\
  (forall ch w1 t reason w2,
     get_chat env (chat_id (chat msg)) (world st) = (Return ch, w1) ->
     is_private ch = false ->
     extract_user_and_reason env msg w1 = (Return (Some t, reason), w2) ->
     protect_admins env func msg st
       = (Raise (AttributeError "'NoneType' object has no attribute 'id'"),
          step (step st (EvGetChat (chat_id (chat msg))) w1)
               (EvExtract msg) w2)).
Proof.
  split; [| split].
  - intros ch w1 bot w2 sent w3 Hchat Hgroup Hbot Hok Hreply.
    unfold admin_only, message_reply, from_user_id. unfold_M.
    answer_with Hchat. answer_with Hgroup. answer_with Hbot.
    answer_with Hok. rewrite Huser. sim. by answer_with Hreply.
  - intros permission bot w1 Hgroup Hbot Hok.
    unfold require_permission, from_user_id. rewrite Hgroup, Huser.
    unfold_M. answer_with Hbot. by rewrite Hok.
  - intros ch w1 t reason w2 Hchat Hgroup Hextract.
    unfold protect_admins, from_user_id. rewrite Huser. unfold_M.
    answer_with Hchat. answer_with Hgroup. by answer_with Hextract.
Qed.

End GateCases.

(** ** Chunking *)

Lemma string_app_nil_r s : s +:+ "" = s.
Proof.
  induction s as [| c s IH]; [done |]. exact (f_equal (String c) IH).
Qed.

Lemma string_app_assoc s1 s2 s3 : (s1 +:+ s2) +:+ s3 = s1 +:+ (s2 +:+ s3).
Proof.
  induction s1 as [| c s1 IH]; [done |]. exact (f_equal (String c) IH).
Qed.

Lemma join_app l1 l2 : join (l1 ++ l2) = join l1 +:+ join l2.
Proof.
  induction l1 as [| x l1 IH]; simpl; [done |].
  by rewrite IH, string_app_assoc.
Qed.

Lemma join_singleton s : join [s] = s.
Proof. apply string_app_nil_r. Qed.

(** The first [n] chunks of [s] make up its first [n * limit] characters. *)
Lemma join_chunks s n :
  join (map (fun i => Py.slice s i (i + limit))
            (map (fun k => 0 + Z.of_nat k * limit) (seq 0 n)))
  = Py.slice s 0 (Z.of_nat n * limit).
Proof.
  induction n as [| n IH].
  - simpl. by destruct s.
  - rewrite seq_S, !map_app, join_app, IH. cbn [map Nat.add].
    rewrite join_singleton.
    replace (0 + Z.of_nat n * limit) with (Z.of_nat n * limit) by lia.
    replace (Z.of_nat (S n) * limit) with (Z.of_nat n * limit + limit) by lia.
    apply slice_append; unfold limit; lia.
Qed.

Lemma chunk_count_bounds len :
  0 <= len ->
  let n := (len - 0 + limit - 1) / limit in
  0 <= n /\ len <= n * limit /\ (n - 1) * limit < len.
Proof.
  intros Hlen n. subst n. unfold limit.
  pose proof (Z.div_mod (len - 0 + 4000 - 1) 4000 ltac:(lia)) as Hdm.
  pose proof (Z.mod_pos_bound (len - 0 + 4000 - 1) 4000 ltac:(lia)) as Hmod.
  lia.
Qed.

Lemma lookup_map {A B} (f : A -> B) (l : list A) (k : nat) :
  map f l !! k = f <$> (l !! k).
Proof.
  revert k. induction l as [| x l IH]; intros [| k]; simpl; auto.
Qed.

(** X13. Chunking loses nothing and keeps the order: the parts, joined,
    are the text.  There are [ceil(len / 4000)] of them; part [k] has
    [min(4000, len - 4000 k)] characters, so that every part is non-empty
    and at most 4000 long, and all but the last are exactly 4000 long. *)
Theorem parts_of_partition response_text :
  join (parts_of response_text) = response_text /\
  length (parts_of response_text)
    = Z.to_nat ((Py.len response_text + 3999) / 4000) /\
  (forall k part,
     parts_of response_text !! k = Some part ->
     Py.len part = Z.min 4000 (Py.len response_text - 4000 * Z.of_nat k) /\
     0 < Py.len part).
Proof.
  assert (Hlen : 0 <= Py.len response_text) by (unfold Py.len; lia).
  pose proof (chunk_count_bounds _ Hlen) as Hn. cbv zeta in Hn.
  unfold parts_of, Py.range. split; [| split].
  - rewrite join_chunks. apply slice_whole.
    rewrite Z2Nat.id by lia. lia.
  - rewrite !length_map, length_seq. f_equal. unfold limit. f_equal. lia.
  - intros k part. rewrite !lookup_map.
    destruct (seq 0 _ !! k) as [j |] eqn:Hseq; [| done].
    apply lookup_seq in Hseq as [-> Hk]. simpl. intros [= <-].
    rewrite len_slice by (unfold limit; lia). unfold limit in *. lia.
Qed.

(** ** The relay handler, case by case *)

Section GeminiCases.
Context {W : Type} (env : Collaborators W) (cfg : Config).

(** X14. While the chat is in the set, an invocation makes one call, the
    reply with the wait notice, and nothing else: usage is not logged,
    the backend is not called, the set is not changed.  The invocation
    returns when the reply is delivered and raises what the reply
    raises. *)
Theorem gemini_command_rejects_busy msg (st : state W) r w1
    (Hbusy : chat_id (chat msg) ∈ active_gemini_requests st)
    (Hreply : reply env msg wait_for_previous (world st) = (r, w1)) :
  gemini_command env cfg msg st
  = (match r with Return _ => Return tt | Raise e => Raise e end,
     step st (EvReply msg wait_for_previous) w1).
Proof.
  rewrite gemini_command_busy by done.
  unfold message_reply. unfold_M. rewrite Hreply. by destruct r.
Qed.

(** X15. An accepted request whose prompt is empty: the usage is logged,
    the sender gets the usage hint, the backend is not called, and the
    set is back to what it was. *)
Theorem gemini_command_empty_prompt msg (st : state W) u w1 t sent w2
    (Hfree : chat_id (chat msg) ∉ active_gemini_requests st)
    (Husage : save_usage env (chat msg) "gemini" (world st) = (Return u, w1))
    (Htext : text msg = Some t)
    (Hprompt : Py.strip (Py.replace (Py.replace t "/gemini" "")
                           ("@" +:+ BOT_USERNAME cfg) "") = "")
    (Hreply : reply env msg write_your_prompt w1 = (Return sent, w2)) :
  fst (gemini_command env cfg msg st) = Return tt /\
  world (snd (gemini_command env cfg msg st)) = w2 /\
  trace (snd (gemini_command env cfg msg st))
    = (trace st ++ [EvSaveUsage (chat msg) "gemini";
                    EvReply msg write_your_prompt])%list /\
  active_gemini_requests (snd (gemini_command env cfg msg st))
    = active_gemini_requests st.
Proof.
  split; [| split; [| split]];
    [| | | by apply (gemini_command_releases env cfg msg st u w1)].
  all: unfold gemini_command, prompt_of, message_reply,
              active_add, active_discard, get_active, set_active.
  all: unfold_M.
  all: rewrite bool_decide_eq_false_2 by done; sim; answer_with Husage.
  all: rewrite Htext, Hprompt, String.eqb_refl; sim; answer_with Hreply.
  - done.
  - done.
  - by rewrite <- app_assoc.
Qed.

(** X16. An accepted request on which the backend fails, by raising or
    by a response without text: the sender gets the apology with the
    text of the exception, the interim message is not deleted, the
    handler returns normally, and the set is back to what it was. *)
Theorem gemini_command_backend_failure msg (st : state W) u w1 t waiting w2
    r w3 e sent w4
    (Hfree : chat_id (chat msg) ∉ active_gemini_requests st)
    (Husage : save_usage env (chat msg) "gemini" (world st) = (Return u, w1))
    (Htext : text msg = Some t)
    (Hprompt : Py.strip (Py.replace (Py.replace t "/gemini" "")
                           ("@" +:+ BOT_USERNAME cfg) "") <> "")
    (Hwait : reply env msg wait_a_moment w1 = (Return waiting, w2))
    (Hgen : generate_content env (GEMINI_MODEL cfg)
              (Py.strip (Py.replace (Py.replace t "/gemini" "")
                           ("@" +:+ BOT_USERNAME cfg) "")) w2
            = (r, w3))
    (Hfail : r = Raise e \/
             (r = Return None /\
              e = TypeError "object of type 'NoneType' has no len()"))
    (Hsorry : reply env msg
                ("Sorry, an unexpected error had occured: " +:+ str_exn e) w3
              = (Return sent, w4)) :
  fst (gemini_command env cfg msg st) = Return tt /\
  world (snd (gemini_command env cfg msg st)) = w4 /\
  trace (snd (gemini_command env cfg msg st))
    = (trace st ++ [EvSaveUsage (chat msg) "gemini";
                    EvReply msg wait_a_moment;
                    EvGenerate (GEMINI_MODEL cfg)
                      (Py.strip (Py.replace (Py.replace t "/gemini" "")
                                   ("@" +:+ BOT_USERNAME cfg) ""));
                    EvReply msg ("Sorry, an unexpected error had occured: "
                                 +:+ str_exn e)])%list /\
  active_gemini_requests (snd (gemini_command env cfg msg st))
    = active_gemini_requests st.
Proof.
  assert (Hnonempty :
    String.eqb (Py.strip (Py.replace (Py.replace t "/gemini" "")
                            ("@" +:+ BOT_USERNAME cfg) "")) "" = false)
    by by apply String.eqb_neq.
  split; [| split; [| split]];
    [| | | by apply (gemini_command_releases env cfg msg st u w1)].
  all: unfold gemini_command, prompt_of, checked_len, message_reply,
              active_add, active_discard, get_active, set_active.
  all: unfold_M.
  all: rewrite bool_decide_eq_false_2 by done; sim; answer_with Husage.
  all: rewrite Htext, Hnonempty; sim; answer_with Hwait; answer_with Hgen.
  all: unfold sorry.
  all: destruct Hfail as [-> | [-> ->]]; sim; answer_with Hsorry.
  all: try done.
  all: by rewrite <- !app_assoc.
Qed.

(** X17. Past [save_usage] the guard is released on every way out of the
    handler, whatever the collaborators do afterwards (a failing backend,
    a failing reply, also a failing reply of the [except] clause, in
    which case the handler raises): the set is what it was before the
    request, and the chat is not in it. *)
Theorem gemini_command_guard_released msg (st : state W) u w1
    (Hfree : chat_id (chat msg) ∉ active_gemini_requests st)
    (Husage : save_usage env (chat msg) "gemini" (world st) = (Return u, w1)) :
  active_gemini_requests (snd (gemini_command env cfg msg st))
    = active_gemini_requests st /\
  chat_id (chat msg)
    ∉ active_gemini_requests (snd (gemini_command env cfg msg st)).
Proof.
  rewrite (gemini_command_releases env cfg msg st u w1) by done. done.
Qed.

(** X18. The handler never touches the guard of another chat: whatever
    happens in an invocation (turned away, [save_usage] failing, any
    outcome afterwards), every other chat is in the set afterwards
    exactly if it was before. *)
Theorem gemini_command_other_chats_untouched msg (st : state W) c :
  c <> chat_id (chat msg) ->
  c ∈ active_gemini_requests (snd (gemini_command env cfg msg st)) <->
  c ∈ active_gemini_requests st.
Proof.
  intros Hc.
  destruct (decide (chat_id (chat msg) ∈ active_gemini_requests st))
    as [Hbusy | Hfree].
  - rewrite gemini_command_busy by done.
    unfold message_reply. unfold_M.
    destruct (reply env msg wait_for_previous (world st)) as [[sent | e] w1];
      done.
  - destruct (save_usage env (chat msg) "gemini" (world st))
      as [[u | e] w1] eqn:Husage.
    + by rewrite (gemini_command_releases env cfg msg st u w1).
    + rewrite (gemini_command_usage_failure env cfg msg st e w1) by done.
      sim. rewrite elem_of_union, elem_of_singleton. tauto.
Qed.

(** With replies delivered, the loop over the parts sends them all, in
    order, each followed by a pause. *)
Lemma send_parts_run msg parts (st : state W) :
  replies_delivered env ->
  exists w',
    send_parts env cfg msg parts st
    = (Return tt,
       {| world := w';
          trace := trace st ++ flat_map (fun part =>
                     [EvReply msg (answer cfg part); EvSleep]) parts;
          active_gemini_requests := active_gemini_requests st |}).
Proof.
  intros Hreplies. revert st.
  induction parts as [| part rest IH]; intros st.
  - exists (world st). cbn [send_parts flat_map]. rewrite app_nil_r.
    by destruct st.
  - cbn [send_parts flat_map]. unfold message_reply, sleep. unfold_M.
    destruct (Hreplies msg (answer cfg part) (world st)) as (sent & w1 & Hsent).
    answer_with Hsent.
    destruct (IH (step (step st (EvReply msg (answer cfg part)) w1) EvSleep w1))
      as (w' & ->).
    exists w'. sim. by rewrite <- !app_assoc.
Qed.

(** X19. An accepted request with a prompt and a response text of any
    length, replies and the deletion delivered.  The handler sends the
    interim reply, calls the backend once, sends the text (as it is when
    it has at most 4000 characters, otherwise part by part in order, with
    a pause after each part), deletes the interim message last, and
    returns with the set as it was.  A text of exactly 4000 characters
    is not split. *)
Theorem gemini_command_success msg (st : state W) u w1 t waiting w2
    response_text w3
    (Hfree : chat_id (chat msg) ∉ active_gemini_requests st)
    (Husage : save_usage env (chat msg) "gemini" (world st) = (Return u, w1))
    (Htext : text msg = Some t)
    (Hprompt : Py.strip (Py.replace (Py.replace t "/gemini" "")
                           ("@" +:+ BOT_USERNAME cfg) "") <> "")
    (Hwait : reply env msg wait_a_moment w1 = (Return waiting, w2))
    (Hgen : generate_content env (GEMINI_MODEL cfg)
              (Py.strip (Py.replace (Py.replace t "/gemini" "")
                           ("@" +:+ BOT_USERNAME cfg) "")) w2
            = (Return (Some response_text), w3))
    (Hreplies : replies_delivered env)
    (Hdeletions : deletions_delivered env) :
  fst (gemini_command env cfg msg st) = Return tt /\
  trace (snd (gemini_command env cfg msg st))
    = (trace st ++ [EvSaveUsage (chat msg) "gemini";
                    EvReply msg wait_a_moment;
                    EvGenerate (GEMINI_MODEL cfg)
                      (Py.strip (Py.replace (Py.replace t "/gemini" "")
                                   ("@" +:+ BOT_USERNAME cfg) ""))]
                ++ answer_events cfg msg response_text
                ++ [EvDelete waiting])%list /\
  active_gemini_requests (snd (gemini_command env cfg msg st))
    = active_gemini_requests st /\
  (Py.len response_text = 4000 ->
   answer_events cfg msg response_text
     = [EvReply msg ("**" +:+ Py.title (GEMINI_MODEL cfg) +:+ ":** " +:+
                     response_text)]).
Proof.
  assert (Hnonempty :
    String.eqb (Py.strip (Py.replace (Py.replace t "/gemini" "")
                            ("@" +:+ BOT_USERNAME cfg) "")) "" = false)
    by by apply String.eqb_neq.
  assert (Hrun : exists st',
    gemini_command env cfg msg st = (Return tt, st') /\
    trace st'
      = (trace st ++ [EvSaveUsage (chat msg) "gemini";
                      EvReply msg wait_a_moment;
                      EvGenerate (GEMINI_MODEL cfg)
                        (Py.strip (Py.replace (Py.replace t "/gemini" "")
                                     ("@" +:+ BOT_USERNAME cfg) ""))]
                  ++ answer_events cfg msg response_text
                  ++ [EvDelete waiting])%list).
  { unfold gemini_command, prompt_of, checked_len, message_reply,
           active_add, active_discard, get_active, set_active.
    unfold_M.
    rewrite bool_decide_eq_false_2 by done. sim. answer_with Husage.
    rewrite Htext, Hnonempty. sim.
    answer_with Hwait. answer_with Hgen.
    unfold answer_events.
    destruct (Py.len response_text >? limit).
    - match goal with
      | |- context [send_parts env cfg msg ?ps ?s] =>
          destruct (send_parts_run msg ps s Hreplies) as (w4 & ->)
      end.
      sim. destruct (Hdeletions waiting w4) as (w5 & Hdel).
      answer_with Hdel. eexists. split; [reflexivity |]. sim.
      by rewrite <- !app_assoc.
    - destruct (Hreplies msg (answer cfg response_text) w3)
        as (sent & w4 & Hsent).
      sim. answer_with Hsent. destruct (Hdeletions waiting w4) as (w5 & Hdel).
      answer_with Hdel. eexists. split; [reflexivity |]. sim.
      by rewrite <- !app_assoc. }
  destruct Hrun as (st' & Hrun & Htrace).
  split; [by rewrite Hrun | split; [by rewrite Hrun | split]].
  - by apply (gemini_command_releases env cfg msg st u w1).
  - intros Hlen. unfold answer_events. by rewrite Hlen.
Qed.

End GeminiCases.

(** ** The prompt *)

Lemma replace_from_all_space c0 old new ws :
  Py.is_space c0 = false ->
  all_space ws = true ->
  Py.replace_from (String c0 old) new 0 ws = ws.
Proof.
  intros Hc0. induction ws as [| c ws IH]; [done |].
  intros [Hc Hws]%andb_prop. cbn [Py.replace_from String.prefix].
  destruct (ascii_dec c0 c) as [-> | _]; [congruence |].
  by rewrite IH.
Qed.

Lemma lstrip_all_space ws : all_space ws = true -> Py.lstrip ws = "".
Proof.
  induction ws as [| c ws IH]; [done |].
  intros [Hc Hws]%andb_prop. cbn [Py.lstrip]. rewrite Hc. by apply IH.
Qed.

(** X20. A message that is the command followed by nothing but
    whitespace (the characters [str.strip()] removes, U+00A0 and U+0085
    among them) has the empty prompt, whatever the bot is called. *)
Theorem prompt_of_bare_command {W} (cfg : Config) msg ws (st : state W) :
  text msg = Some ("/gemini" +:+ ws) ->
  all_space ws = true ->
  prompt_of cfg msg st = (Return "", st).
Proof.
  intros Htext Hws. unfold prompt_of. rewrite Htext.
  assert (Hfirst : Py.replace ("/gemini" +:+ ws) "/gemini" "" = ws).
  { unfold Py.replace.
    transitivity (Py.replace_from "/gemini" "" 0 ws); [by destruct ws |].
    by apply replace_from_all_space. }
  rewrite Hfirst. unfold Py.replace.
  change ("@" +:+ BOT_USERNAME cfg) with (String "@" (BOT_USERNAME cfg)).
  rewrite replace_from_all_space by done.
  unfold Py.strip. by rewrite lstrip_all_space.
Qed.

(** ** The further properties at work *)

Section FurtherRuns.
Import Scenario.

Lemma check_admin_permissions_private_witness :
  check_admin_permissions (collaborators private_chat) 7 7 start
  = (Return true, step start (EvGetChat 7) tt).
Proof.
  apply (check_admin_permissions_private (collaborators private_chat) 7 7
           start dm tt); reflexivity.
Defined.

Lemma check_admin_permissions_bot_not_admin_witness :
  check_admin_permissions (collaborators bot_is_member) (-1001) 7 start
  = (Return false,
     step (step start (EvGetChat (-1001)) tt) (EvGetChatMember (-1001) Me) tt).
Proof.
  apply (check_admin_permissions_bot_not_admin (collaborators bot_is_member)
           (-1001) 7 start group tt
           (member_of {| user_id := 1 |} MEMBER None) tt); reflexivity.
Defined.

Lemma check_admin_permissions_user_admin_invalid_witness :
  fst (check_admin_permissions
         (collaborators (lookup_fails (UserAdminInvalid "USER_ADMIN_INVALID")))
         (-1001) 7 start)
  = Return false.
Proof.
  assert (Hbot : forall bot,
            Return (member_of {| user_id := 1 |} ADMINISTRATOR None) = Return bot ->
            owner_or_administrator (status bot) = true).
  { intros bot Heq. injection Heq as <-. reflexivity. }
  rewrite (check_admin_permissions_user_admin_invalid
             (collaborators (lookup_fails (UserAdminInvalid "USER_ADMIN_INVALID")))
             (-1001) 7 start group tt _ tt "USER_ADMIN_INVALID" tt
             eq_refl eq_refl eq_refl Hbot eq_refl).
  reflexivity.
Defined.

(** The owner's command runs: the wrapper returns the body's [None]. *)
Lemma admin_only_follows_resolver_witness :
  admin_only (collaborators healthy) (invoke body_ok) ban_message start
  = (Return None,
     {| world := tt;
        trace := [EvGetChat (-1001); EvGetChatMember (-1001) Me;
                  EvGetChat (-1001); EvGetChatMember (-1001) Me;
                  EvGetChatMember (-1001) (UserRef 7);
                  EvFunc ban_message];
        active_gemini_requests := ∅ |}).
Proof.
  erewrite (proj2 (admin_only_follows_resolver (collaborators healthy)
                     (invoke body_ok) ban_message start _ _ group tt alice true
                     eq_refl
                     (or_intror (conj eq_refl
                        (ex_intro _ _ (ex_intro _ tt
                           (conj eq_refl (conj eq_refl eq_refl))))))
                     eq_refl eq_refl)
                  eq_refl None _ eq_refl).
  reflexivity.
Defined.

Lemma admin_only_bot_gate_witness :
  admin_only (collaborators bot_is_member) (invoke body_ok) ban_message start
  = (Return None,
     {| world := tt;
        trace := [EvGetChat (-1001); EvGetChatMember (-1001) Me;
                  EvReply ban_message bot_needs_admin];
        active_gemini_requests := ∅ |}).
Proof.
  erewrite (proj1 (admin_only_bot_gate (collaborators bot_is_member)
                     (invoke body_ok) ban_message start group tt _ tt
                     eq_refl eq_refl eq_refl)
                  _ eq_refl eq_refl _ tt eq_refl).
  reflexivity.
Defined.

Lemma require_permission_bot_gate_witness :
  require_permission (collaborators bot_lookup_fails) "ban_members"
                     (invoke body_ok) ban_message start
  = (Return None,
     {| world := tt;
        trace := [EvGetChatMember (-1001) Me;
                  EvReply ban_message bot_unverified];
        active_gemini_requests := ∅ |}).
Proof.
  erewrite (proj2 (require_permission_bot_gate (collaborators bot_lookup_fails)
                     "ban_members" (invoke body_ok) ban_message start _ tt
                     eq_refl eq_refl)
                  _ eq_refl _ tt eq_refl).
  reflexivity.
Defined.

(** In the one-to-one chat alice's command runs although no membership
    can be looked up. *)
Lemma private_chat_passthrough_witness :
  admin_only (collaborators private_chat) (invoke body_ok) dm_message start
  = (Return None,
     {| world := tt;
        trace := [EvGetChat 7; EvGetChat 7; EvFunc dm_message];
        active_gemini_requests := ∅ |}).
Proof.
  erewrite (proj2 (proj2 (private_chat_passthrough (collaborators private_chat)
                            (invoke body_ok) dm_message start))
                  dm tt alice dm tt None _
                  eq_refl eq_refl eq_refl eq_refl eq_refl eq_refl).
  reflexivity.
Defined.

(** Alice bans bob, an administrator, in a group where the bot is an
    ordinary member: the body runs. *)
Lemma protect_admins_open_when_resolver_blind_witness :
  protect_admins (collaborators blind_bot) (invoke body_ok) ban_message start
  = (Return None,
     {| world := tt;
        trace := [EvGetChat (-1001); EvExtract ban_message;
                  EvGetChat (-1001); EvGetChatMember (-1001) Me;
                  EvFunc ban_message];
        active_gemini_requests := ∅ |}).
Proof.
  assert (Hother : user_id bob <> user_id alice) by discriminate.
  erewrite (proj1 (protect_admins_open_when_resolver_blind
                     (collaborators blind_bot) (invoke body_ok) ban_message
                     start group tt bob "spam" tt alice
                     eq_refl eq_refl eq_refl eq_refl Hother)
                  group tt _ tt eq_refl eq_refl eq_refl eq_refl).
  reflexivity.
Defined.

(** The owner's failing command is run twice. *)
Lemma require_permission_reruns_body_witness :
  require_permission (collaborators healthy) "ban_members"
                     (invoke body_fails) ban_message start
  = (Return None,
     {| world := tt;
        trace := [EvGetChatMember (-1001) Me;
                  EvGetChatMember (-1001) (UserRef 7);
                  EvFunc ban_message;
                  EvGetChatAdministrators (-1001);
                  EvFunc ban_message;
                  EvReply ban_message permission_check_error];
        active_gemini_requests := ∅ |}).
Proof.
  assert (Hkind : forall m, OtherException "ban failed" <> UserAdminInvalid m)
    by (intros m; discriminate).
  erewrite (proj2 (require_permission_reruns_body (collaborators healthy)
                     "ban_members" (invoke body_fails) ban_message start _
                     _ tt alice _ tt _ _ tt _
                     eq_refl eq_refl eq_refl eq_refl eq_refl
                     (or_introl eq_refl) eq_refl Hkind eq_refl eq_refl
                     (or_introl eq_refl))
                  _ _ _ tt eq_refl eq_refl).
  reflexivity.
Defined.

Lemma require_permission_body_user_admin_invalid_witness :
  require_permission (collaborators healthy) "ban_members"
                     (invoke body_hits_admin) ban_message start
  = (Return None,
     {| world := tt;
        trace := [EvGetChatMember (-1001) Me;
                  EvGetChatMember (-1001) (UserRef 7);
                  EvFunc ban_message;
                  EvReply ban_message user_unverified];
        active_gemini_requests := ∅ |}).
Proof.
  erewrite (require_permission_body_user_admin_invalid (collaborators healthy)
              "ban_members" (invoke body_hits_admin) ban_message start _
              _ tt alice _ tt _ _ tt
              eq_refl eq_refl eq_refl eq_refl eq_refl
              (or_introl eq_refl) eq_refl eq_refl).
  reflexivity.
Defined.

Lemma gates_without_sender_witness :
  require_permission (collaborators healthy) "ban_members"
                     (invoke body_ok) anonymous_ban_message start
  = (Raise (AttributeError "'NoneType' object has no attribute 'id'"),
     step start (EvGetChatMember (-1001) Me) tt).
Proof.
  apply (proj1 (proj2 (gates_without_sender (collaborators healthy)
                         (invoke body_ok) anonymous_ban_message start eq_refl))
               "ban_members" (member_of {| user_id := 1 |} ADMINISTRATOR None) tt
               eq_refl eq_refl eq_refl).
Defined.

(** The last of the three parts of [long_text] is one character long. *)
Lemma parts_of_partition_witness :
  Py.len (Py.slice long_text 8000 12000)
    = Z.min 4000 (Py.len long_text - 4000 * Z.of_nat 2) /\
  0 < Py.len (Py.slice long_text 8000 12000).
Proof.
  apply (proj2 (proj2 (parts_of_partition long_text)) 2%nat).
  vm_compute. reflexivity.
Defined.

Lemma gemini_command_rejects_busy_witness :
  gemini_command (collaborators healthy) config gemini_message group_busy
  = (Return tt,
     step group_busy (EvReply gemini_message wait_for_previous) tt).
Proof.
  apply (gemini_command_rejects_busy (collaborators healthy) config
           gemini_message group_busy
           (Return (sent gemini_message wait_for_previous)) tt).
  - apply elem_of_singleton. reflexivity.
  - reflexivity.
Defined.

Lemma gemini_command_empty_prompt_witness :
  fst (gemini_command (collaborators healthy) config bare_gemini_message start)
    = Return tt /\
  world (snd (gemini_command (collaborators healthy) config
                bare_gemini_message start)) = tt /\
  trace (snd (gemini_command (collaborators healthy) config
                bare_gemini_message start))
    = [EvSaveUsage group "gemini";
       EvReply bare_gemini_message write_your_prompt] /\
  active_gemini_requests
    (snd (gemini_command (collaborators healthy) config
            bare_gemini_message start))
    = ∅.
Proof.
  apply (gemini_command_empty_prompt (collaborators healthy) config
           bare_gemini_message start tt tt ("/gemini" +:+ blanks)
           (sent bare_gemini_message write_your_prompt) tt).
  - apply not_elem_of_empty.
  - reflexivity.
  - reflexivity.
  - vm_compute. reflexivity.
  - reflexivity.
Defined.

Lemma gemini_command_backend_failure_witness :
  fst (gemini_command (collaborators backend_fails) config gemini_message start)
    = Return tt /\
  world (snd (gemini_command (collaborators backend_fails) config
                gemini_message start)) = tt /\
  trace (snd (gemini_command (collaborators backend_fails) config
                gemini_message start))
    = [EvSaveUsage group "gemini";
       EvReply gemini_message wait_a_moment;
       EvGenerate "gemini-2.5-flash" "what is the capital of France?";
       EvReply gemini_message
         "Sorry, an unexpected error had occured: 503 UNAVAILABLE"] /\
  active_gemini_requests
    (snd (gemini_command (collaborators backend_fails) config
            gemini_message start))
    = ∅.
Proof.
  assert (Hprompt :
    Py.strip (Py.replace (Py.replace "/gemini what is the capital of France?"
                            "/gemini" "")
                ("@" +:+ BOT_USERNAME config) "") <> "")
    by (vm_compute; discriminate).
  apply (gemini_command_backend_failure (collaborators backend_fails) config
           gemini_message start tt tt _
           (sent gemini_message wait_a_moment) tt _ tt
           (OtherException "503 UNAVAILABLE")
           (sent gemini_message
              (sorry (OtherException "503 UNAVAILABLE"))) tt
           (not_elem_of_empty _) eq_refl eq_refl Hprompt eq_refl eq_refl
           (or_introl eq_refl) eq_refl).
Defined.

Lemma gemini_command_guard_released_witness :
  active_gemini_requests
    (snd (gemini_command (collaborators backend_fails) config
            gemini_message start))
    = ∅ /\
  -1001 ∉ active_gemini_requests
            (snd (gemini_command (collaborators backend_fails) config
                    gemini_message start)).
Proof.
  apply (gemini_command_guard_released (collaborators backend_fails) config
           gemini_message start tt tt (not_elem_of_empty _) eq_refl).
Defined.

(** Chat 42 stays in the set while a request of the group fails in
    [save_usage]. *)
Lemma gemini_command_other_chats_untouched_witness :
  42 ∈ active_gemini_requests
         (snd (gemini_command (collaborators usage_fails) config
                 gemini_message other_busy)) <->
  42 ∈ active_gemini_requests other_busy.
Proof.
  apply (gemini_command_other_chats_untouched (collaborators usage_fails)
           config gemini_message other_busy 42).
  discriminate.
Defined.

Lemma gemini_command_success_witness :
  fst (gemini_command (collaborators healthy) config gemini_message start)
    = Return tt /\
  trace (snd (gemini_command (collaborators healthy) config
                gemini_message start))
    = [EvSaveUsage group "gemini";
       EvReply gemini_message wait_a_moment;
       EvGenerate "gemini-2.5-flash" "what is the capital of France?";
       EvReply gemini_message "**Gemini-2.5-Flash:** Paris.";
       EvDelete (sent gemini_message wait_a_moment)].
Proof.
  assert (Hprompt :
    Py.strip (Py.replace (Py.replace "/gemini what is the capital of France?"
                            "/gemini" "")
                ("@" +:+ BOT_USERNAME config) "") <> "")
    by (vm_compute; discriminate).
  assert (Hdel : deletions_delivered (collaborators healthy))
    by (intros m w; by exists w).
  destruct (gemini_command_success (collaborators healthy) config
              gemini_message start tt tt _
              (sent gemini_message wait_a_moment) tt "Paris." tt
              (not_elem_of_empty _) eq_refl eq_refl Hprompt eq_refl eq_refl
              (scenario_replies_delivered healthy) Hdel)
    as (Hfst & Htrace & _ & _).
  split; [exact Hfst |]. rewrite Htrace. reflexivity.
Defined.

Lemma prompt_of_bare_command_witness :
  prompt_of config bare_gemini_message start = (Return "", start).
Proof.
  apply (prompt_of_bare_command config bare_gemini_message blanks start);
    reflexivity.
Defined.

End FurtherRuns.

(** The prompt of ["/gemini hi"] followed by a no-break space is ["hi"]. *)
Example prompt_of_strips_no_break_space :
  prompt_of Scenario.config
    {| message_id := 600;
       chat := Scenario.group;
       from_user := Some Scenario.alice;
       text := Some ("/gemini hi" +:+ String (ascii_of_nat 160) "") |}
    Scenario.start
  = (Return "hi", Scenario.start).
Proof. reflexivity. Qed.
